(** * waybar-openweathermap: the widget's formatting, lookups and run sequence

    A shallow embedding of [cmd/root.go].  Go strings are byte sequences and
    are modelled by [string] (a literal in this file holds the same UTF-8
    bytes as the literal in the Go source).  Go's [int] and [int64] are
    modelled by [Z], [float64] by an explicit sign/mantissa/exponent triple.
    The functions of the Go standard library and of the third-party packages
    that the program calls are either modelled after their documentation
    (strings, strconv, unicode, utf8) or taken as fields of an environment
    record (the provider client, the title caser, the clock's time zone,
    the JSON encoder). *)

From Stdlib Require Import ZArith Ascii String List Lia Bool DecimalString.
From stdpp Require Import base gmap strings.

Open Scope string_scope.
Open Scope Z_scope.

(** ** The icon table (root.go, lines 38-58) *)

Definition icons : gmap string string :=
  list_to_map
    [ ("01d", "☀️"); ("02d", "⛅️"); ("03d", "☁️"); ("04d", "☁️");
      ("09d", "🌧️"); ("10d", "🌦️"); ("11d", "⛈️"); ("13d", "🌨️");
      ("50d", "🌫");
      ("01n", "☀️"); ("02n", "⛅️"); ("03n", "☁️"); ("04n", "☁️");
      ("09n", "🌧️"); ("10n", "🌦️"); ("11n", "⛈️"); ("13n", "🌨️");
      ("50n", "🌫") ].

(** [icons[code]]: indexing a Go map with an absent key yields the zero
    value of the element type, here the empty string. *)
Definition icons_at (code : string) : string :=
  default "" (icons !! code).

Definition timefmt : string := "15:04 MST".

(** ** strings.Join *)

Fixpoint strings_Join (elems : list string) (sep : string) : string :=
  match elems with
  | [] => ""
  | [e] => e
  | e :: rest => e ++ sep ++ strings_Join rest sep
  end.

(** ** text (root.go, lines 190-197) *)

Definition text (icon temp : string) : string :=
  strings_Join [icon; " "; temp; " °C"] "".

(** ** UTF-8 decoding, as the [range] loop over a Go string performs it

    [DecodeRuneInString s] is the first code point of [s] and the number of
    bytes it occupies.  An empty string gives [(RuneError, 0)]; a byte
    sequence that is not a well-formed encoding gives [(RuneError, 1)]. *)

Definition rune := Z.

Definition RuneError : rune := 65533.

Definition byte_val (a : ascii) : Z := Z.of_N (N_of_ascii a).

Definition in_range (lo hi b : Z) : bool := (lo <=? b) && (b <=? hi).

(** The value bits of a continuation byte that lies in [lo..hi]. *)
Definition cont_byte (lo hi : Z) (s : string) : option (Z * string) :=
  match s with
  | String a rest =>
      let b := byte_val a in
      if in_range lo hi b then Some (Z.land b 63, rest) else None
  | EmptyString => None
  end.

Definition DecodeRuneInString (s : string) : rune * nat :=
  match s with
  | EmptyString => (RuneError, 0%nat)
  | String a0 s1 =>
      let b0 := byte_val a0 in
      if b0 <? 128 then (b0, 1%nat)
      else if b0 <? 194 then (RuneError, 1%nat)
      else if b0 <? 224 then
        match cont_byte 128 191 s1 with
        | Some (c1, _) => (Z.lor (Z.shiftl (Z.land b0 31) 6) c1, 2%nat)
        | None => (RuneError, 1%nat)
        end
      else if b0 <? 240 then
        let lo := if b0 =? 224 then 160 else 128 in
        let hi := if b0 =? 237 then 159 else 191 in
        match cont_byte lo hi s1 with
        | Some (c1, s2) =>
            match cont_byte 128 191 s2 with
            | Some (c2, _) =>
                (Z.lor (Z.shiftl (Z.land b0 15) 12)
                       (Z.lor (Z.shiftl c1 6) c2), 3%nat)
            | None => (RuneError, 1%nat)
            end
        | None => (RuneError, 1%nat)
        end
      else if b0 <? 245 then
        let lo := if b0 =? 240 then 144 else 128 in
        let hi := if b0 =? 244 then 143 else 191 in
        match cont_byte lo hi s1 with
        | Some (c1, s2) =>
            match cont_byte 128 191 s2 with
            | Some (c2, s3) =>
                match cont_byte 128 191 s3 with
                | Some (c3, _) =>
                    (Z.lor (Z.shiftl (Z.land b0 7) 18)
                           (Z.lor (Z.shiftl c1 12)
                                  (Z.lor (Z.shiftl c2 6) c3)), 4%nat)
                | None => (RuneError, 1%nat)
                end
            | None => (RuneError, 1%nat)
            end
        | None => (RuneError, 1%nat)
        end
      else (RuneError, 1%nat)
  end.

(** ** unicode.IsSpace

    Latin-1 is special-cased; above it the White_Space property applies. *)

Definition unicode_IsSpace (r : rune) : bool :=
  if (0 <=? r) && (r <=? 255) then
    (r =? 9) || (r =? 10) || (r =? 11) || (r =? 12) || (r =? 13)
    || (r =? 32) || (r =? 133) || (r =? 160)
  else
    (r =? 5760) || in_range 8192 8202 r || in_range 8232 8233 r
    || (r =? 8239) || (r =? 8287) || (r =? 12288).

(** ** strings.TrimLeftFunc

    [indexFunc] is the loop [for i, r := range s]: [i] is the byte offset
    of the code point [r].  The loop is written over the bytes of [s];
    [skip] counts the bytes of the current code point still to pass.
    Go's [-1] is [None]. *)

Fixpoint range_from (s : string) (skip i : nat)
    (f : rune -> bool) (truth : bool) : option nat :=
  match s with
  | EmptyString => None
  | String _ rest =>
      match skip with
      | S k => range_from rest k (S i) f truth
      | O =>
          let (r, size) := DecodeRuneInString s in
          if Bool.eqb (f r) truth then Some i
          else range_from rest (size - 1) (S i) f truth
      end
  end.

Definition indexFunc (s : string) (f : rune -> bool) (truth : bool)
    : option nat :=
  range_from s 0 0 f truth.

(** [s[i:]] *)
Fixpoint slice_from (i : nat) (s : string) : string :=
  match i, s with
  | O, _ => s
  | S k, String _ rest => slice_from k rest
  | S _, EmptyString => EmptyString
  end.

Definition strings_TrimLeftFunc (s : string) (f : rune -> bool) : string :=
  match indexFunc s f false with
  | None => ""
  | Some i => slice_from i s
  end.

(** The newline, as the Go escape [\n] denotes it. *)
Definition LF : string := String (ascii_of_nat 10) EmptyString.

(** ** Numbers

    A finite [float64] is [(-1)^neg * m * 2^e]; the sign is kept apart from
    the magnitude so that negative zero is a value of its own.  Every
    finite value of the Go type is of this form (the type here also holds
    dyadic numbers too wide for 64 bits, which the program never sees). *)

Inductive float64 : Type :=
| Finite (neg : bool) (m : N) (e : Z)
| Inf (neg : bool)
| NaN.

(** The magnitude of a finite value as the fraction [float_num / float_den]. *)
Definition float_num (m : N) (e : Z) : Z := Z.of_N m * 2 ^ Z.max e 0.
Definition float_den (e : Z) : Z := 2 ^ Z.max (- e) 0.

Definition int64_min : Z := - 2 ^ 63.
Definition int64_max : Z := 2 ^ 63 - 1.

(** The conversion [int64(x)] of a [float64]: the fraction is discarded.
    Where the result does not fit [int64] (or [x] is not finite) the Go
    specification leaves the value to the implementation: [unrep]. *)
Definition int64_of_float64 (unrep : float64 -> Z) (x : float64) : Z :=
  match x with
  | Finite neg m e =>
      let a := Z.shiftl (Z.of_N m) e in
      let z := if neg then - a else a in
      if in_range int64_min int64_max z then z else unrep x
  | _ => unrep x
  end.

(** [strconv.FormatInt(i, 10)] *)
Definition strconv_FormatInt (i : Z) : string :=
  NilZero.string_of_int (Z.to_int i).

(** Rounding of [n / d] to the nearest integer, ties to even
    ([0 <= n], [0 < d]). *)
Definition round_half_even (n d : Z) : Z :=
  let q := n / d in
  let r := n mod d in
  if 2 * r <? d then q
  else if d <? 2 * r then q + 1
  else if Z.even q then q else q + 1.

Fixpoint zeros (n : nat) : string :=
  match n with
  | O => ""
  | S k => "0" ++ zeros k
  end.

Definition zero_pad (width : nat) (s : string) : string :=
  zeros (width - String.length s) ++ s.

(** [strconv.FormatFloat(x, 'f', prec, 64)]: the exact decimal expansion of
    [x], rounded to [prec] digits after the point. *)
Definition strconv_FormatFloat (x : float64) (prec : nat) : string :=
  match x with
  | NaN => "NaN"
  | Inf neg => if neg then "-Inf" else "+Inf"
  | Finite neg m e =>
      let scale := 10 ^ Z.of_nat prec in
      let r := round_half_even (float_num m e * scale) (float_den e) in
      (if neg then "-" else "")
      ++ strconv_FormatInt (r / scale)
      ++ match prec with
         | O => ""
         | S _ => "." ++ zero_pad prec (strconv_FormatInt (r mod scale))
         end
  end.

(** ** The provider client's data (package openweathermap)

    The fields the program reads, with the types the package declares:
    [Humidity], [ID], [Sunrise] and [Sunset] are [int], the other numbers
    [float64].  The fields [Main], [Weather], [Sys] and [Wind] of the
    response carry an underscore here, their names being those of the
    record types. *)

Record Coordinates : Type := mkCoordinates {
  Longitude : float64;
  Latitude : float64
}.

Record Main : Type := mkMain {
  Main_Temp : float64;
  Main_FeelsLike : float64;
  Main_Pressure : float64;
  Main_Humidity : Z
}.

Record Weather : Type := mkWeather {
  Weather_ID : Z;
  Weather_Icon : string
}.

Record Sys : Type := mkSys {
  Sys_Sunrise : Z;
  Sys_Sunset : Z
}.

Record Wind : Type := mkWind {
  Wind_Speed : float64
}.

Record CurrentWeatherData : Type := mkCurrent {
  Unit : string;
  Lang : string;
  Key : string;
  Main_ : Main;
  Weather_ : list Weather;
  Sys_ : Sys;
  Wind_ : Wind
}.

Record ConditionData : Type := mkCondition {
  ConditionData_ID : Z;
  ConditionData_Meaning : string
}.

(** ** The output record (root.go, lines 225-229) *)

Record result : Type := mkResult {
  Text : string;
  Tooltip : string;
  Class : string
}.

(** ** What the program calls outside its own file *)

Definition error := string.

Inductive res (A : Type) : Type :=
| Ok (a : A)
| Err (err : error).
Arguments Ok {A} a.
Arguments Err {A} err.

Inductive language : Type := English | German | Dutch.

Record Env : Type := mkEnv {
  (** [strconv.ParseFloat(s, 64)] *)
  strconv_ParseFloat : string -> res float64;
  (** the implementation's value of an unrepresentable [int64(x)] *)
  conv_unrepresentable : float64 -> Z;
  (** [cases.Title(tag).String(s)] *)
  cases_Title : language -> string -> string;
  (** the condition groups of package openweathermap *)
  ThunderstormConditions : list ConditionData;
  DrizzleConditions : list ConditionData;
  RainConditions : list ConditionData;
  SnowConditions : list ConditionData;
  AtmosphereConditions : list ConditionData;
  CloudConditions : list ConditionData;
  AdditionalConditions : list ConditionData;
  (** [openweathermap.NewCurrent(unit, lang, key)] *)
  NewCurrent : string -> string -> string -> res CurrentWeatherData;
  (** the provider's answer to [request.CurrentByCoordinates(c)]: the
      request with the response's fields filled in, or an error *)
  provider : CurrentWeatherData -> Coordinates -> res CurrentWeatherData;
  (** [time.Unix(sec, 0).Format(layout)] in the local time zone *)
  time_Format : Z -> string -> string;
  (** [json.Marshal] of a [result] *)
  json_Marshal : result -> res string
}.

(** ** The process: a trace of what it did, and how it went on *)

Inductive event : Type :=
| EvQuery (request : CurrentWeatherData) (c : Coordinates)
| EvStderr (msg : string)
| EvStdout (b : string).

Inductive status (A : Type) : Type :=
| Done (a : A)
| Exit (code : Z)
| Panic (msg : string).
Arguments Done {A} a.
Arguments Exit {A} code.
Arguments Panic {A} msg.

Definition Proc (A : Type) : Type := list event -> status A * list event.

#[global] Instance Proc_ret : MRet Proc :=
  fun A (a : A) tr => (Done a, tr).

#[global] Instance Proc_bind : MBind Proc :=
  fun A B (k : A -> Proc B) (c : Proc A) tr =>
    match c tr with
    | (Done a, tr') => k a tr'
    | (Exit code, tr') => (Exit code, tr')
    | (Panic msg, tr') => (Panic msg, tr')
    end.

Definition emit (e : event) : Proc unit :=
  fun tr => (Done tt, (tr ++ [e])%list).

Definition os_Exit {A} (code : Z) : Proc A := fun tr => (Exit code, tr).

Definition panic {A} (msg : string) : Proc A := fun tr => (Panic msg, tr).

(** [log.Fatalf]: the message goes to the error stream, then [os.Exit(1)]. *)
Definition log_Fatalf {A} (msg : string) : Proc A :=
  emit (EvStderr msg) ;; os_Exit 1.

(** [l[i]] with Go's bounds check. *)
Definition index {A} (l : list A) (i : nat) : Proc A :=
  match l !! i with
  | Some a => mret a
  | None =>
      panic ("runtime error: index out of range ["
             ++ strconv_FormatInt (Z.of_nat i) ++ "] with length "
             ++ strconv_FormatInt (Z.of_nat (length l)))
  end.

(** [os.Stdout.Write(b)]; the program drops what the call returns. *)
Definition os_Stdout_Write (b : string) : Proc unit := emit (EvStdout b).

(** ** The program *)

Section Program.

Variable E : Env.

(** *** description (root.go, lines 232-250) *)

Definition groups : list (list ConditionData) :=
  [ ThunderstormConditions E; DrizzleConditions E; RainConditions E;
    SnowConditions E; AtmosphereConditions E; CloudConditions E;
    AdditionalConditions E ].

(** The inner loop; [Some] is the [return] that leaves both loops. *)
Fixpoint scan_group (g : list ConditionData) (id : Z) : option string :=
  match g with
  | [] => None
  | c :: rest =>
      if ConditionData_ID c =? id then Some (ConditionData_Meaning c)
      else scan_group rest id
  end.

(** The outer loop. *)
Fixpoint scan_groups (gs : list (list ConditionData)) (id : Z)
    : option string :=
  match gs with
  | [] => None
  | g :: rest =>
      match scan_group g id with
      | Some meaning => Some meaning
      | None => scan_groups rest id
      end
  end.

Definition description (id : Z) : string :=
  match scan_groups groups id with
  | Some meaning => meaning
  | None => ""
  end.

(** *** tooltip (root.go, lines 198-223) *)

Definition tooltip
    (desc feelsLike pressure humidity sunrise sunset windspeed : string)
    : string :=
  let caser := cases_Title E German in
  strings_TrimLeftFunc
    (strings_Join
       [ caser desc;
         LF;
         "Feels like ";
         feelsLike;
         " °C" ++ LF;
         "Pressure ";
         pressure;
         " hPa" ++ LF;
         "Humidity ";
         humidity;
         "%" ++ LF;
         "Sunrise ";
         sunrise;
         LF;
         "Sunset ";
         sunset;
         LF;
         "Wind speed ";
         windspeed;
         " m/sec" ] "")
    unicode_IsSpace.

(** *** rootCmd.Run (root.go, lines 76-140) *)

(** [request.CurrentByCoordinates(c)]: the one outbound call. *)
Definition CurrentByCoordinates (request : CurrentWeatherData)
    (c : Coordinates) : Proc (res CurrentWeatherData) :=
  emit (EvQuery request c) ;; mret (provider E request c).

(** Lines 110-133: the record built from the response, [w_icon] and [w_id]
    being the two reads of [request.Weather[0]]. *)
Definition build (request : CurrentWeatherData) (w_icon w_id : Weather)
    : result :=
  let temp := Main_Temp (Main_ request) in
  let icon := icons_at (Weather_Icon w_icon) in
  let desc := description (Weather_ID w_id) in
  let feelsLike := Main_FeelsLike (Main_ request) in
  let humidity := Main_Humidity (Main_ request) in
  let pressure := Main_Pressure (Main_ request) in
  let sunrise := time_Format E (Sys_Sunrise (Sys_ request)) timefmt in
  let sunset := time_Format E (Sys_Sunset (Sys_ request)) timefmt in
  let windSpeed := Wind_Speed (Wind_ request) in
  {| Text := text icon (strconv_FormatFloat temp 1);
     Tooltip :=
       tooltip desc
         (strconv_FormatInt
            (int64_of_float64 (conv_unrepresentable E) feelsLike))
         (strconv_FormatInt
            (int64_of_float64 (conv_unrepresentable E) pressure))
         (strconv_FormatInt humidity)
         sunrise
         sunset
         (strconv_FormatFloat windSpeed 0);
     Class := "weather" |}.

Definition Run (args : list string) : Proc unit :=
  a0 ← index args 0;
  long ← match strconv_ParseFloat E a0 with
         | Err err => log_Fatalf ("parse longitude " ++ a0 ++ ": " ++ err)
         | Ok v => mret v
         end;
  a1 ← index args 1;
  lat ← match strconv_ParseFloat E a1 with
        | Err err => log_Fatalf ("parse latitude " ++ a1 ++ ": " ++ err)
        | Ok v => mret v
        end;
  a2 ← index args 2;
  request ← match NewCurrent E "C" "en" a2 with
            | Err err => log_Fatalf ("get weatherinfo: " ++ err)
            | Ok r => mret r
            end;
  answer ← CurrentByCoordinates request
             {| Longitude := long; Latitude := lat |};
  request ← match answer with
            | Err err => log_Fatalf ("get weather: " ++ err)
            | Ok r => mret r
            end;
  w_icon ← index (Weather_ request) 0;
  w_id ← index (Weather_ request) 0;
  let data := build request w_icon w_id in
  b ← match json_Marshal E data with
      | Err err => log_Fatalf ("encode json: " ++ err)
      | Ok b => mret b
      end;
  os_Stdout_Write b.

(** *** Execute (root.go, lines 73 and 145-150)

    [Args: cobra.ExactArgs(3)] is checked before [Run]; a command that
    returns an error makes [Execute] call [os.Exit(1)].  Flag parsing and
    the configuration file are the command framework's and are left out. *)
Definition Execute (args : list string) : Proc unit :=
  if (length args =? 3)%nat then Run args
  else
    emit (EvStderr ("Error: accepts 3 arg(s), received "
                    ++ strconv_FormatInt (Z.of_nat (length args))))
    ;; os_Exit 1.

End Program.

(** ** What an observer of the process sees *)

(** The exit code: 0 when [main] returns, the argument of [os.Exit], and 2
    when the Go runtime ends the process on a panic. *)
Definition exit_code {A} (st : status A) : Z :=
  match st with
  | Done _ => 0
  | Exit code => code
  | Panic _ => 2
  end.

Fixpoint stdout_of (tr : list event) : list string :=
  match tr with
  | [] => []
  | EvStdout b :: rest => b :: stdout_of rest
  | _ :: rest => stdout_of rest
  end.

Fixpoint queries_of (tr : list event) : list Coordinates :=
  match tr with
  | [] => []
  | EvQuery _ c :: rest => c :: queries_of rest
  | _ :: rest => queries_of rest
  end.

Fixpoint stderr_of (tr : list event) : list string :=
  match tr with
  | [] => []
  | EvStderr msg :: rest => msg :: stderr_of rest
  | _ :: rest => stderr_of rest
  end.

(** One run of the program from an empty trace. *)
Definition run (E : Env) (args : list string) : status unit * list event :=
  Execute E args [].

(** ** A sample environment, for running the program on concrete inputs *)

Module Sample.

(** A few decimal literals with their exact binary values. *)
Definition ParseFloat (s : string) : res float64 :=
  if String.eqb s "4.5" then Ok (Finite false 9 (-1))
  else if String.eqb s "52.25" then Ok (Finite false 209 (-2))
  else if String.eqb s "-0.75" then Ok (Finite true 3 (-2))
  else if String.eqb s "NaN" then Ok NaN
  else Err "invalid syntax".

(** The value the amd64 instruction gives. *)
Definition unrepresentable (_ : float64) : Z := int64_min.

Definition is_lower (a : ascii) : bool :=
  let n := nat_of_ascii a in ((97 <=? n) && (n <=? 122))%nat.
Definition is_upper (a : ascii) : bool :=
  let n := nat_of_ascii a in ((65 <=? n) && (n <=? 90))%nat.
Definition to_upper (a : ascii) : ascii :=
  if is_lower a then ascii_of_nat (nat_of_ascii a - 32) else a.
Definition to_lower (a : ascii) : ascii :=
  if is_upper a then ascii_of_nat (nat_of_ascii a + 32) else a.

(** Title case for ASCII words. *)
Fixpoint title_from (start : bool) (s : string) : string :=
  match s with
  | EmptyString => EmptyString
  | String a rest =>
      if is_lower a || is_upper a then
        String (if start then to_upper a else to_lower a)
               (title_from false rest)
      else String a (title_from true rest)
  end.

Definition Title (_ : language) (s : string) : string := title_from true s.

Definition Thunderstorm : list ConditionData :=
  [ mkCondition 200 "thunderstorm with light rain";
    mkCondition 211 "thunderstorm" ].
Definition Drizzle : list ConditionData :=
  [ mkCondition 300 "light intensity drizzle" ].
Definition Rain : list ConditionData :=
  [ mkCondition 500 "light rain"; mkCondition 501 "moderate rain" ].
Definition Snow : list ConditionData :=
  [ mkCondition 600 "light snow" ].
Definition Atmosphere : list ConditionData :=
  [ mkCondition 701 "mist" ].
Definition Cloud : list ConditionData :=
  [ mkCondition 800 "clear sky"; mkCondition 801 "few clouds" ].
Definition Additional : list ConditionData :=
  [ mkCondition 951 "calm"; mkCondition 800 "shadowed entry" ].

Definition empty_request (key : string) : CurrentWeatherData :=
  {| Unit := "C"; Lang := "EN"; Key := key;
     Main_ := mkMain (Finite false 0 0) (Finite false 0 0)
                     (Finite false 0 0) 0;
     Weather_ := [];
     Sys_ := mkSys 0 0;
     Wind_ := mkWind (Finite false 0 0) |}.

(** A key is accepted when it is not empty. *)
Definition new_current (unit lang key : string) : res CurrentWeatherData :=
  if String.eqb key "" then Err "invalid API key"
  else Ok (empty_request key).

(** 21.34 degrees (rounded to a binary fraction), feels like 20.75, 1013.5
    hPa, 55 %, wind 3.5 m/sec, condition 800 with the given icon code. *)
Definition answer_with (ws : list Weather) (request : CurrentWeatherData)
    : CurrentWeatherData :=
  {| Unit := Unit request; Lang := Lang request; Key := Key request;
     Main_ := mkMain (Finite false 2731 (-7)) (Finite false 83 (-2))
                     (Finite false 2027 (-1)) 55;
     Weather_ := ws;
     Sys_ := mkSys 1700000000 1700030000;
     Wind_ := mkWind (Finite false 7 (-1)) |}.

Definition clock (sec : Z) (layout : string) : string :=
  if sec =? 1700000000 then "06:30 CET"
  else if sec =? 1700030000 then "18:45 CET"
  else "00:00 UTC".

Fixpoint escape (s : string) : string :=
  match s with
  | EmptyString => EmptyString
  | String a rest =>
      if Ascii.eqb a (ascii_of_nat 10) then "\n" ++ escape rest
      else if Ascii.eqb a (ascii_of_nat 34) then
        String (ascii_of_nat 92) (String a (escape rest))
      else if Ascii.eqb a (ascii_of_nat 92) then "\\" ++ escape rest
      else String a (escape rest)
  end.

Definition quoted (s : string) : string :=
  String (ascii_of_nat 34) (escape s ++ String (ascii_of_nat 34) "").

Definition marshal (r : result) : res string :=
  Ok ("{" ++ quoted "text" ++ ":" ++ quoted (Text r) ++ ","
          ++ quoted "tooltip" ++ ":" ++ quoted (Tooltip r) ++ ","
          ++ quoted "class" ++ ":" ++ quoted (Class r) ++ "}").

(** An environment whose provider answers every query with [ws] as the
    list of condition entries. *)
Definition env (ws : list Weather) : Env :=
  {| strconv_ParseFloat := ParseFloat;
     conv_unrepresentable := unrepresentable;
     cases_Title := Title;
     ThunderstormConditions := Thunderstorm;
     DrizzleConditions := Drizzle;
     RainConditions := Rain;
     SnowConditions := Snow;
     AtmosphereConditions := Atmosphere;
     CloudConditions := Cloud;
     AdditionalConditions := Additional;
     NewCurrent := new_current;
     provider := fun request _ => Ok (answer_with ws request);
     time_Format := clock;
     json_Marshal := marshal |}.

Definition key : string := "0123456789abcdef0123456789abcdef".

End Sample.

(** ** initConfig (root.go, lines 166-188)

    The configuration reader (package viper) is a state that the calls
    transform; what each call does to it is the package's business and is
    left open.  [os.UserHomeDir] returns the directory and an error. *)

Record ConfigEnv : Type := mkConfigEnv {
  viper : Type;
  viper_SetConfigFile : string -> viper -> viper;
  viper_AddConfigPath : string -> viper -> viper;
  viper_SetConfigType : string -> viper -> viper;
  viper_SetConfigName : string -> viper -> viper;
  viper_AutomaticEnv : viper -> viper;
  (** [viper.ReadInConfig()]: the state after the call and its error *)
  viper_ReadInConfig : viper -> viper * option error;
  viper_ConfigFileUsed : viper -> string;
  os_UserHomeDir : string * option error
}.

(** [fmt.Fprintln(os.Stderr, operands...)]: the operands separated by
    spaces, and a newline. *)
Definition fmt_Fprintln_Stderr (operands : list string) : Proc unit :=
  emit (EvStderr (strings_Join operands " " ++ LF)).

(** [cobra.CheckErr(err)]: nothing for a nil error; otherwise the error is
    printed to the error stream and the process exits with code 1. *)
Definition cobra_CheckErr (err : option error) : Proc unit :=
  match err with
  | None => mret tt
  | Some msg => fmt_Fprintln_Stderr ["Error:"; msg] ;; os_Exit 1
  end.

Definition initConfig (C : ConfigEnv) (cfgFile : string) (v : viper C)
    : Proc (viper C) :=
  v ← (if negb (String.eqb cfgFile "") then
         mret (viper_SetConfigFile C cfgFile v)
       else
         let (home, err) := os_UserHomeDir C in
         cobra_CheckErr err ;;
         mret (viper_SetConfigName C ".waybar-openweathermap"
                 (viper_SetConfigType C "yaml"
                    (viper_AddConfigPath C home v))));
  let v := viper_AutomaticEnv C v in
  let (v, err) := viper_ReadInConfig C v in
  match err with
  | None =>
      fmt_Fprintln_Stderr ["Using config file:"; viper_ConfigFileUsed C v] ;;
      mret v
  | Some _ => mret v
  end.

(** [cobra.OnInitialize(initConfig)] (root.go, line 153): the command
    framework runs the initializer when the root command executes, before
    it checks the arguments and calls [Run]. *)
Definition Execute_with_config (C : ConfigEnv) (E : Env)
    (cfgFile : string) (args : list string) (v : viper C) : Proc unit :=
  initConfig C cfgFile v ;; Execute E args.

(** ** More sample environments *)

Module SampleConfig.

(** The reader's state is the list of the calls made on it, latest first. *)
Definition config (home : string * option error) (readable : bool)
    : ConfigEnv :=
  {| viper := list string;
     viper_SetConfigFile := fun f v => ("file " ++ f) :: v;
     viper_AddConfigPath := fun d v => ("path " ++ d) :: v;
     viper_SetConfigType := fun t v => ("type " ++ t) :: v;
     viper_SetConfigName := fun n v => ("name " ++ n) :: v;
     viper_AutomaticEnv := fun v => "env" :: v;
     viper_ReadInConfig :=
       fun v => if readable then ("read" :: v, None)
                else (v, Some "Config File Not Found");
     viper_ConfigFileUsed := fun v => "/home/u/.waybar-openweathermap.yaml";
     os_UserHomeDir := home |}.

End SampleConfig.

Module SampleCatalog.

(** An environment like [Sample.env] with the given condition groups. *)
Definition with_groups (g1 g2 g3 g4 g5 g6 g7 : list ConditionData) : Env :=
  {| strconv_ParseFloat := Sample.ParseFloat;
     conv_unrepresentable := Sample.unrepresentable;
     cases_Title := Sample.Title;
     ThunderstormConditions := g1;
     DrizzleConditions := g2;
     RainConditions := g3;
     SnowConditions := g4;
     AtmosphereConditions := g5;
     CloudConditions := g6;
     AdditionalConditions := g7;
     NewCurrent := Sample.new_current;
     provider := fun request _ => Ok (Sample.answer_with [] request);
     time_Format := Sample.clock;
     json_Marshal := Sample.marshal |}.

Definition calm : list ConditionData := [ mkCondition 951 "calm" ].

(** No ID occurs twice. *)
Definition ordered : Env :=
  with_groups Sample.Thunderstorm Sample.Drizzle Sample.Rain Sample.Snow
    Sample.Atmosphere Sample.Cloud calm.

(** The same entries, with the groups in another order. *)
Definition shuffled : Env :=
  with_groups Sample.Cloud calm Sample.Snow Sample.Rain
    Sample.Thunderstorm Sample.Atmosphere Sample.Drizzle.

(** An encoder that always fails. *)
Definition failing_encoder : Env :=
  {| strconv_ParseFloat := Sample.ParseFloat;
     conv_unrepresentable := Sample.unrepresentable;
     cases_Title := Sample.Title;
     ThunderstormConditions := Sample.Thunderstorm;
     DrizzleConditions := Sample.Drizzle;
     RainConditions := Sample.Rain;
     SnowConditions := Sample.Snow;
     AtmosphereConditions := Sample.Atmosphere;
     CloudConditions := Sample.Cloud;
     AdditionalConditions := Sample.Additional;
     NewCurrent := Sample.new_current;
     provider :=
       fun request _ => Ok (Sample.answer_with [mkWeather 800 "01d"] request);
     time_Format := Sample.clock;
     json_Marshal := fun _ => Err "unsupported value" |}.

(** A provider that is unreachable. *)
Definition unreachable_provider : Env :=
  {| strconv_ParseFloat := Sample.ParseFloat;
     conv_unrepresentable := Sample.unrepresentable;
     cases_Title := Sample.Title;
     ThunderstormConditions := Sample.Thunderstorm;
     DrizzleConditions := Sample.Drizzle;
     RainConditions := Sample.Rain;
     SnowConditions := Sample.Snow;
     AtmosphereConditions := Sample.Atmosphere;
     CloudConditions := Sample.Cloud;
     AdditionalConditions := Sample.Additional;
     NewCurrent := Sample.new_current;
     provider := fun _ _ => Err "dial tcp: no route to host";
     time_Format := Sample.clock;
     json_Marshal := Sample.marshal |}.

End SampleCatalog.

(** ** Notions used to state the properties *)

(** The seven groups as one list, in the order [description] lists them. *)
Definition catalog (E : Env) : list ConditionData :=
  (ThunderstormConditions E ++ DrizzleConditions E ++ RainConditions E
   ++ SnowConditions E ++ AtmosphereConditions E ++ CloudConditions E
   ++ AdditionalConditions E)%list.

(** [z] is the finite value [x] with its fraction discarded: the integer
    next to [x] in the direction of zero. *)
Definition truncation_of (x : float64) (z : Z) : Prop :=
  match x with
  | Finite neg m e =>
      Z.abs z * float_den e <= float_num m e < (Z.abs z + 1) * float_den e
      /\ (if neg then z <= 0 else 0 <= z)
  | _ => False
  end.


Definition is_finite (x : float64) : Prop :=
  match x with
  | Finite _ _ _ => True
  | _ => False
  end.

Definition is_digit (a : ascii) : bool :=
  let n := nat_of_ascii a in ((48 <=? n) && (n <=? 57))%nat.

Fixpoint all_digits (s : string) : bool :=
  match s with
  | EmptyString => true
  | String a rest => is_digit a && all_digits rest
  end.

Definition is_number (s : string) : bool :=
  match s with
  | EmptyString => false
  | String _ _ => all_digits s
  end.

(** An optional minus sign and then one or more decimal digits, nothing
    else: no decimal point, no exponent. *)
Definition is_integer_text (s : string) : bool :=
  match s with
  | String "-" rest => is_number rest
  | _ => is_number s
  end.

(** The first [n] bytes of [s] exist and none of them is ASCII. *)
Fixpoint high_prefix (n : nat) (s : string) : Prop :=
  match n with
  | O => True
  | S k =>
      match s with
      | String a rest => 128 <= byte_val a /\ high_prefix k rest
      | EmptyString => False
      end
  end.

(** The seven lines of the tooltip, joined by newlines, before trimming. *)
Definition tooltip_body (E : Env)
    (desc feelsLike pressure humidity sunrise sunset windspeed : string)
    : string :=
  strings_Join
    [ cases_Title E German desc;
      "Feels like " ++ feelsLike ++ " °C";
      "Pressure " ++ pressure ++ " hPa";
      "Humidity " ++ humidity ++ "%";
      "Sunrise " ++ sunrise;
      "Sunset " ++ sunset;
      "Wind speed " ++ windspeed ++ " m/sec" ] LF.

(** The six labelled lines of the tooltip, joined by newlines. *)
Definition labelled_lines
    (feelsLike pressure humidity sunrise sunset windspeed : string)
    : string :=
  strings_Join
    [ "Feels like " ++ feelsLike ++ " °C";
      "Pressure " ++ pressure ++ " hPa";
      "Humidity " ++ humidity ++ "%";
      "Sunrise " ++ sunrise;
      "Sunset " ++ sunset;
      "Wind speed " ++ windspeed ++ " m/sec" ] LF.

(** The sign a finite value is printed with. *)
Definition sign_text (neg : bool) : string := if neg then "-" else "".

(** The end of [initConfig], from [viper.AutomaticEnv()] on, as a function
    of the reader's state and of the trace so far. *)
Definition read_config (C : ConfigEnv) (v : viper C) (tr : list event)
    : status (viper C) * list event :=
  match viper_ReadInConfig C (viper_AutomaticEnv C v) with
  | (v', None) =>
      (Done v',
       (tr ++ [EvStderr ("Using config file: "
                         ++ viper_ConfigFileUsed C v' ++ LF)])%list)
  | (v', Some _) => (Done v', tr)
  end.

(** * Properties *)

Example trim_mixed :
  strings_TrimLeftFunc (LF ++ "  " ++ LF ++ "x y ") unicode_IsSpace = "x y ".
Proof. vm_compute. reflexivity. Qed.

Example text_sun : text "☀️" "21.3" = "☀️ 21.3 °C".
Proof. reflexivity. Qed.

Example decode_degree : DecodeRuneInString "°C" = (176, 2%nat).
Proof. vm_compute. reflexivity. Qed.

Example decode_sun : DecodeRuneInString "☀️" = (9728, 3%nat).
Proof. vm_compute. reflexivity. Qed.

(** U+2003 EM SPACE, encoded E2 80 83, is white space. *)
Example decode_em_space :
  let em := String (ascii_of_nat 226) (String (ascii_of_nat 128)
              (String (ascii_of_nat 131) "x")) in
  DecodeRuneInString em = (8195, 3%nat) /\
  strings_TrimLeftFunc em unicode_IsSpace = "x".
Proof. vm_compute. split; reflexivity. Qed.

(** A truncated encoding decodes to [RuneError], which is not white space. *)
Example decode_truncated :
  let s := String (ascii_of_nat 226) (" x") in
  DecodeRuneInString s = (RuneError, 1%nat) /\
  strings_TrimLeftFunc s unicode_IsSpace = s.
Proof. vm_compute. split; reflexivity. Qed.

Example run_sample :
  exists b,
    Sample.marshal
      {| Text := "☀️ 21.3 °C";
         Tooltip := "Clear Sky" ++ LF ++ "Feels like 20 °C" ++ LF
                    ++ "Pressure 1013 hPa" ++ LF ++ "Humidity 55%" ++ LF
                    ++ "Sunrise 06:30 CET" ++ LF ++ "Sunset 18:45 CET" ++ LF
                    ++ "Wind speed 4 m/sec";
         Class := "weather" |} = Ok b /\
    run (Sample.env [mkWeather 800 "01d"]) ["4.5"; "52.25"; Sample.key]
    = (Done tt,
       [ EvQuery (Sample.empty_request Sample.key)
           (mkCoordinates (Finite false 9 (-1)) (Finite false 209 (-2)));
         EvStdout b ]).
Proof. eexists. split; vm_compute; reflexivity. Qed.

(** ** The condition lookup *)

Section ConditionLookup.

Variable E : Env.

Lemma scan_group_app g1 g2 id :
  scan_group (g1 ++ g2) id =
  match scan_group g1 id with
  | Some m => Some m
  | None => scan_group g2 id
  end.
Proof.
  induction g1 as [|c g1 IH]; simpl; [reflexivity|].
  destruct (ConditionData_ID c =? id); [reflexivity | exact IH].
Qed.

Lemma scan_groups_concat gs id :
  scan_groups gs id = scan_group (concat gs) id.
Proof.
  induction gs as [|g gs IH]; simpl; [reflexivity|].
  rewrite scan_group_app, IH. reflexivity.
Qed.

Lemma groups_catalog : concat (groups E) = catalog E.
Proof. unfold groups, catalog. simpl. rewrite app_nil_r. reflexivity. Qed.

Lemma scan_group_first pre c post id :
  ConditionData_ID c = id ->
  (forall c', In c' pre -> ConditionData_ID c' <> id) ->
  scan_group (pre ++ c :: post) id = Some (ConditionData_Meaning c).
Proof.
  intros Hc Hpre. induction pre as [|c' pre IH]; simpl.
  - apply Z.eqb_eq in Hc. rewrite Hc. reflexivity.
  - destruct (Z.eqb_spec (ConditionData_ID c') id) as [Heq|_].
    + exfalso. apply (Hpre c'); [left; reflexivity | exact Heq].
    + apply IH. intros c'' Hin. apply Hpre. right. exact Hin.
Qed.

Lemma scan_group_absent g id :
  (forall c, In c g -> ConditionData_ID c <> id) ->
  scan_group g id = None.
Proof.
  intros Hg. induction g as [|c g IH]; simpl; [reflexivity|].
  destruct (Z.eqb_spec (ConditionData_ID c) id) as [Heq|_].
  - exfalso. apply (Hg c); [left; reflexivity | exact Heq].
  - apply IH. intros c' Hin. apply Hg. right. exact Hin.
Qed.

(** C3: [description] searches the groups in the order thunderstorm,
    drizzle, rain, snow, atmosphere, cloud, additional, as one list; it
    returns the meaning of the first entry with the given ID, and the empty
    string when no entry has it. *)
Theorem description_first_match (id : Z) :
  (forall pre c post,
      catalog E = (pre ++ c :: post)%list ->
      ConditionData_ID c = id ->
      (forall c', In c' pre -> ConditionData_ID c' <> id) ->
      description E id = ConditionData_Meaning c)
  /\ ((forall c, In c (catalog E) -> ConditionData_ID c <> id) ->
      description E id = "").
Proof.
  unfold description. rewrite scan_groups_concat, groups_catalog. split.
  - intros pre c post Hcat Hc Hpre. rewrite Hcat.
    rewrite (scan_group_first pre c post id Hc Hpre). reflexivity.
  - intros Habs. rewrite (scan_group_absent _ _ Habs). reflexivity.
Qed.

End ConditionLookup.

(** In the sample catalog 800 occurs in the cloud group and again in the
    additional group: the cloud entry is found.  999 occurs nowhere. *)
Lemma description_first_match_witness :
  description (Sample.env []) 800 = "clear sky"
  /\ description (Sample.env []) 999 = "".
Proof.
  split.
  - apply (proj1 (description_first_match (Sample.env []) 800)
             [ mkCondition 200 "thunderstorm with light rain";
               mkCondition 211 "thunderstorm";
               mkCondition 300 "light intensity drizzle";
               mkCondition 500 "light rain"; mkCondition 501 "moderate rain";
               mkCondition 600 "light snow"; mkCondition 701 "mist" ]
             (mkCondition 800 "clear sky")
             [ mkCondition 801 "few clouds"; mkCondition 951 "calm";
               mkCondition 800 "shadowed entry" ]).
    + reflexivity.
    + reflexivity.
    + simpl. intros c' H.
      repeat (destruct H as [H|H]; [subst c'; simpl; lia|]). destruct H.
  - apply (proj2 (description_first_match (Sample.env []) 999)).
    simpl. intros c H.
    repeat (destruct H as [H|H]; [subst c; simpl; lia|]). destruct H.
Defined.

(** ** The icon table *)

Lemma icons_lookup_cases code p :
  icons !! code = Some p ->
  In (code, p)
    [ ("01d", "☀️"); ("02d", "⛅️"); ("03d", "☁️"); ("04d", "☁️");
      ("09d", "🌧️"); ("10d", "🌦️"); ("11d", "⛈️"); ("13d", "🌨️");
      ("50d", "🌫");
      ("01n", "☀️"); ("02n", "⛅️"); ("03n", "☁️"); ("04n", "☁️");
      ("09n", "🌧️"); ("10n", "🌦️"); ("11n", "⛈️"); ("13n", "🌨️");
      ("50n", "🌫") ].
Proof.
  intros H. apply list_elem_of_In. unfold icons in H.
  apply elem_of_list_to_map_2 in H. exact H.
Qed.

Lemma icons_at_present code p : icons !! code = Some p -> icons_at code = p.
Proof. intros H. unfold icons_at. rewrite H. reflexivity. Qed.

Lemma icons_at_absent code : icons !! code = None -> icons_at code = "".
Proof. intros H. unfold icons_at. rewrite H. reflexivity. Qed.

(** C10: when a prefix occurs in the table with either suffix, it occurs
    with both, and both codes carry the same pictogram; the clear-night
    code 01n carries the sun of 01d. *)
Theorem icons_day_night_agree (prefix p : string) :
  icons !! (prefix ++ "d") = Some p \/ icons !! (prefix ++ "n") = Some p ->
  (icons !! (prefix ++ "d") = Some p /\ icons !! (prefix ++ "n") = Some p)
  /\ icons !! "01n" = Some "☀️" /\ icons !! "01d" = Some "☀️".
Proof.
  intros Hin. split; [|split; vm_compute; reflexivity].
  destruct Hin as [H|H]; apply icons_lookup_cases in H; simpl in H;
    repeat (destruct H as [H|H];
      [ injection H as Hk Hp; subst p;
        destruct prefix as [|? [|? [|? [|? ?]]]];
        cbv [String.append] in Hk; try discriminate Hk;
        simplify_eq; split; vm_compute; reflexivity
      | ]); destruct H.
Qed.

Lemma icons_day_night_agree_witness :
  (icons !! "13d" = Some "🌨️" /\ icons !! "13n" = Some "🌨️")
  /\ icons !! "01n" = Some "☀️" /\ icons !! "01d" = Some "☀️".
Proof.
  apply (icons_day_night_agree "13" "🌨️").
  right. vm_compute. reflexivity.
Defined.

(** Every code of the table is two characters and then d or n. *)
Lemma icons_codes_shape code p :
  icons !! code = Some p ->
  exists a b, code = String a (String b "d") \/ code = String a (String b "n").
Proof.
  intros H. apply icons_lookup_cases in H. simpl in H.
  repeat (destruct H as [H|H];
    [ injection H as Hk _; subst code; do 2 eexists;
      first [left; reflexivity | right; reflexivity] | ]).
  destruct H.
Qed.

(** ** The run, stage by stage *)

Section RunFacts.

Variable E : Env.

(** What [Run] does with three arguments, one stage after the other. *)
Lemma Run_stages a0 a1 a2 tr :
  Run E [a0; a1; a2] tr =
  match strconv_ParseFloat E a0 with
  | Err err =>
      (Exit 1,
       (tr ++ [EvStderr ("parse longitude " ++ a0 ++ ": " ++ err)])%list)
  | Ok long =>
  match strconv_ParseFloat E a1 with
  | Err err =>
      (Exit 1,
       (tr ++ [EvStderr ("parse latitude " ++ a1 ++ ": " ++ err)])%list)
  | Ok lat =>
  match NewCurrent E "C" "en" a2 with
  | Err err =>
      (Exit 1, (tr ++ [EvStderr ("get weatherinfo: " ++ err)])%list)
  | Ok request =>
  let c := {| Longitude := long; Latitude := lat |} in
  match provider E request c with
  | Err err =>
      (Exit 1,
       (tr ++ [EvQuery request c; EvStderr ("get weather: " ++ err)])%list)
  | Ok response =>
  match Weather_ response with
  | [] =>
      (Panic "runtime error: index out of range [0] with length 0",
       (tr ++ [EvQuery request c])%list)
  | w :: _ =>
  match json_Marshal E (build E response w w) with
  | Err err =>
      (Exit 1,
       (tr ++ [EvQuery request c; EvStderr ("encode json: " ++ err)])%list)
  | Ok b =>
      (Done tt, (tr ++ [EvQuery request c; EvStdout b])%list)
  end end end end end end.
Proof.
  unfold Run, CurrentByCoordinates, log_Fatalf, os_Stdout_Write, index, emit,
    os_Exit, panic, mbind, mret, Proc_bind, Proc_ret. simpl.
  destruct (strconv_ParseFloat E a0) as [long|err]; [|reflexivity].
  destruct (strconv_ParseFloat E a1) as [lat|err]; [|reflexivity].
  destruct (NewCurrent E "C" "en" a2) as [request|err]; [|reflexivity].
  destruct (provider E request _) as [response|err];
    [|rewrite <- app_assoc; reflexivity].
  destruct (Weather_ response) as [|w ws]; simpl; [reflexivity|].
  destruct (json_Marshal E _) as [b|err]; rewrite <- app_assoc; reflexivity.
Qed.

Lemma run_three a0 a1 a2 : run E [a0; a1; a2] = Run E [a0; a1; a2] [].
Proof. reflexivity. Qed.

Lemma run_wrong_count args :
  length args <> 3%nat ->
  run E args =
  (Exit 1,
   [EvStderr ("Error: accepts 3 arg(s), received "
              ++ strconv_FormatInt (Z.of_nat (length args)))]).
Proof.
  intros H. unfold run, Execute.
  destruct (Nat.eqb_spec (length args) 3%nat) as [Heq|_]; [contradiction|].
  reflexivity.
Qed.

(** All stages succeed: one query, then one write. *)
Lemma run_success a0 a1 a2 long lat request response w ws b :
  strconv_ParseFloat E a0 = Ok long ->
  strconv_ParseFloat E a1 = Ok lat ->
  NewCurrent E "C" "en" a2 = Ok request ->
  provider E request {| Longitude := long; Latitude := lat |} = Ok response ->
  Weather_ response = w :: ws ->
  json_Marshal E (build E response w w) = Ok b ->
  run E [a0; a1; a2] =
  (Done tt,
   [EvQuery request {| Longitude := long; Latitude := lat |}; EvStdout b]).
Proof.
  intros H0 H1 H2 H3 H4 H5.
  rewrite run_three, Run_stages, H0, H1, H2. simpl.
  rewrite H3, H4, H5. reflexivity.
Qed.

(** An answer without condition entries: the read of entry 0 panics. *)
Lemma run_empty_conditions a0 a1 a2 long lat request response :
  strconv_ParseFloat E a0 = Ok long ->
  strconv_ParseFloat E a1 = Ok lat ->
  NewCurrent E "C" "en" a2 = Ok request ->
  provider E request {| Longitude := long; Latitude := lat |} = Ok response ->
  Weather_ response = [] ->
  run E [a0; a1; a2] =
  (Panic "runtime error: index out of range [0] with length 0",
   [EvQuery request {| Longitude := long; Latitude := lat |}]).
Proof.
  intros H0 H1 H2 H3 H4.
  rewrite run_three, Run_stages, H0, H1, H2. simpl.
  rewrite H3, H4. reflexivity.
Qed.

(** C1, as the code has it: the value parsed from the first argument is
    sent in the Longitude field and the value parsed from the second in the
    Latitude field; the run sends this one pair and no other. *)
Theorem coordinates_sent_as_parsed a0 a1 a2 long lat request :
  strconv_ParseFloat E a0 = Ok long ->
  strconv_ParseFloat E a1 = Ok lat ->
  NewCurrent E "C" "en" a2 = Ok request ->
  queries_of (snd (run E [a0; a1; a2]))
  = [ {| Longitude := long; Latitude := lat |} ].
Proof.
  intros H0 H1 H2. rewrite run_three, Run_stages, H0, H1, H2. simpl.
  destruct (provider E request _) as [response|err]; [|reflexivity].
  destruct (Weather_ response) as [|w ws]; [reflexivity|].
  destruct (json_Marshal E _) as [b|err]; reflexivity.
Qed.

(** C7: when the first or the second argument does not parse, the run
    ends with exit code 1 after one message on the error stream that names
    the argument, and nothing else has happened: no query was sent. *)
Theorem parse_failure_precedes_query a0 a1 a2 :
  (exists err, strconv_ParseFloat E a0 = Err err)
  \/ (exists err, strconv_ParseFloat E a1 = Err err) ->
  fst (run E [a0; a1; a2]) = Exit 1
  /\ queries_of (snd (run E [a0; a1; a2])) = []
  /\ stdout_of (snd (run E [a0; a1; a2])) = []
  /\ exists err,
       snd (run E [a0; a1; a2])
       = [EvStderr ("parse longitude " ++ a0 ++ ": " ++ err)]
       \/ snd (run E [a0; a1; a2])
          = [EvStderr ("parse latitude " ++ a1 ++ ": " ++ err)].
Proof.
  intros H. rewrite run_three, Run_stages.
  destruct (strconv_ParseFloat E a0) as [long|err0] eqn:H0.
  - destruct H as [[err H]|[err H]]; [discriminate H|].
    rewrite H. simpl. repeat split. exists err. right. reflexivity.
  - simpl. repeat split. exists err0. left. reflexivity.
Qed.


(** C8: the lookup gives the pictogram of a code of the table and the
    empty string for any other code; with such a code the run still passes
    every stage, and the text of its record starts with the space that
    follows the (empty) icon. *)
Theorem unknown_icon_degrades
    code a0 a1 a2 long lat request response w rest b :
  strconv_ParseFloat E a0 = Ok long ->
  strconv_ParseFloat E a1 = Ok lat ->
  NewCurrent E "C" "en" a2 = Ok request ->
  provider E request {| Longitude := long; Latitude := lat |} = Ok response ->
  Weather_ response = w :: rest ->
  json_Marshal E (build E response w w) = Ok b ->
  (forall p, icons !! code = Some p -> icons_at code = p)
  /\ (icons !! code = None -> icons_at code = "")
  /\ (icons !! Weather_Icon w = None ->
      Text (build E response w w)
      = " " ++ strconv_FormatFloat (Main_Temp (Main_ response)) 1 ++ " °C"
      /\ run E [a0; a1; a2]
         = (Done tt,
            [ EvQuery request {| Longitude := long; Latitude := lat |};
              EvStdout b ])).
Proof.
  intros H0 H1 H2 H3 H4 H5. split; [|split].
  - apply icons_at_present.
  - apply icons_at_absent.
  - intros Hnone. split.
    + unfold build. simpl. rewrite (icons_at_absent _ Hnone). reflexivity.
    + apply (run_success _ _ _ _ _ _ _ _ _ _ H0 H1 H2 H3 H4 H5).
Qed.

End RunFacts.

(** ** Strings *)

Lemma append_cons x (a b : string) : String x a ++ b = String x (a ++ b).
Proof. reflexivity. Qed.

Lemma append_nil_l (b : string) : "" ++ b = b.
Proof. reflexivity. Qed.

Lemma append_assoc (a b c : string) : (a ++ b) ++ c = a ++ (b ++ c).
Proof.
  induction a as [|x a IH]; [reflexivity|].
  rewrite !append_cons, IH. reflexivity.
Qed.

Lemma append_nil_r (a : string) : a ++ "" = a.
Proof.
  induction a as [|x a IH]; [reflexivity|].
  rewrite append_cons, IH. reflexivity.
Qed.

(** where the loop stops, a code point starts on which [f] gives [truth] *)
Lemma range_from_stop s f truth : forall skip i j,
  range_from s skip i f truth = Some j ->
  (i + skip <= j)%nat /\
  exists a rest,
    slice_from (j - i) s = String a rest /\
    Bool.eqb (f (fst (DecodeRuneInString (String a rest)))) truth = true.
Proof.
  induction s as [|a s IH]; intros skip i j H; [discriminate H|].
  cbn [range_from] in H. destruct skip as [|k].
  - destruct (DecodeRuneInString (String a s)) as [r size] eqn:Hd.
    destruct (Bool.eqb (f r) truth) eqn:Hf.
    + injection H as <-. split; [lia|]. exists a, s.
      replace (i - i)%nat with 0%nat by lia. simpl slice_from.
      split; [reflexivity|]. rewrite Hd. exact Hf.
    + apply IH in H. destruct H as [Hle (a' & rest & Hs & Hf')].
      split; [lia|]. exists a', rest. split; [|exact Hf'].
      replace (j - i)%nat with (S (j - S i)) by lia. exact Hs.
  - apply IH in H. destruct H as [Hle (a' & rest & Hs & Hf')].
    split; [lia|]. exists a', rest. split; [|exact Hf'].
    replace (j - i)%nat with (S (j - S i)) by lia. exact Hs.
Qed.

Lemma TrimLeftFunc_head s f :
  strings_TrimLeftFunc s f = ""
  \/ exists a rest,
       strings_TrimLeftFunc s f = String a rest
       /\ f (fst (DecodeRuneInString (String a rest))) = false.
Proof.
  unfold strings_TrimLeftFunc, indexFunc.
  destruct (range_from s 0 0 f false) as [j|] eqn:H; [|left; reflexivity].
  right. apply range_from_stop in H. destruct H as [_ (a & rest & Hs & Hf)].
  rewrite Nat.sub_0_r in Hs. exists a, rest. split; [exact Hs|].
  destruct (f _); [discriminate Hf | reflexivity].
Qed.

Lemma cont_byte_high lo hi a rest c s' :
  128 <= lo -> cont_byte lo hi (String a rest) = Some (c, s') ->
  128 <= byte_val a /\ s' = rest.
Proof.
  intros Hlo H. unfold cont_byte, in_range in H.
  destruct (lo <=? byte_val a) eqn:H1; simpl in H; [|discriminate].
  destruct (byte_val a <=? hi); [|discriminate].
  injection H as _ <-. apply Z.leb_le in H1. split; [lia|reflexivity].
Qed.

Lemma cont_byte_some lo hi s c s' :
  128 <= lo -> cont_byte lo hi s = Some (c, s') ->
  exists a, s = String a s' /\ 128 <= byte_val a.
Proof.
  intros Hlo H. destruct s as [|a rest]; [discriminate H|].
  apply cont_byte_high in H; [|exact Hlo]. destruct H as [Ha ->].
  exists a. split; [reflexivity | exact Ha].
Qed.

Lemma decode_width a s1 :
  exists n, snd (DecodeRuneInString (String a s1)) = S n /\ high_prefix n s1.
Proof.
  unfold DecodeRuneInString.
  set (b0 := byte_val a).
  destruct (b0 <? 128); [exists 0%nat; simpl; auto|].
  destruct (b0 <? 194); [exists 0%nat; simpl; auto|].
  destruct (b0 <? 224).
  { destruct (cont_byte 128 191 s1) as [[c1 s2]|] eqn:H1;
      [|exists 0%nat; simpl; auto].
    apply cont_byte_some in H1; [|lia]. destruct H1 as (a1 & -> & Ha1).
    exists 1%nat. simpl. auto. }
  destruct (b0 <? 240).
  { assert (Hlo : 128 <= (if b0 =? 224 then 160 else 128))
      by (destruct (b0 =? 224); lia).
    destruct (cont_byte _ _ s1) as [[c1 s2]|] eqn:H1;
      [|exists 0%nat; simpl; auto].
    apply cont_byte_some in H1; [|exact Hlo]. destruct H1 as (a1 & -> & Ha1).
    destruct (cont_byte 128 191 s2) as [[c2 s3]|] eqn:H2;
      [|exists 0%nat; simpl; auto].
    apply cont_byte_some in H2; [|lia]. destruct H2 as (a2 & -> & Ha2).
    exists 2%nat. simpl. auto. }
  destruct (b0 <? 245); [|exists 0%nat; simpl; auto].
  assert (Hlo : 128 <= (if b0 =? 240 then 144 else 128))
    by (destruct (b0 =? 240); lia).
  destruct (cont_byte _ _ s1) as [[c1 s2]|] eqn:H1;
    [|exists 0%nat; simpl; auto].
  apply cont_byte_some in H1; [|exact Hlo]. destruct H1 as (a1 & -> & Ha1).
  destruct (cont_byte 128 191 s2) as [[c2 s3]|] eqn:H2;
    [|exists 0%nat; simpl; auto].
  apply cont_byte_some in H2; [|lia]. destruct H2 as (a2 & -> & Ha2).
  destruct (cont_byte 128 191 s3) as [[c3 s4]|] eqn:H3;
    [|exists 0%nat; simpl; auto].
  apply cont_byte_some in H3; [|lia]. destruct H3 as (a3 & -> & Ha3).
  exists 3%nat. simpl. auto.
Qed.

Lemma high_prefix_before_ascii n : forall p c rest,
  byte_val c < 128 -> high_prefix n (p ++ String c rest) ->
  (n <= String.length p)%nat.
Proof.
  induction n as [|n IH]; intros p c rest Hc H; [lia|].
  destruct p as [|a p].
  - rewrite append_nil_l in H. simpl in H. lia.
  - rewrite append_cons in H. simpl in H. destruct H as [_ H].
    apply IH in H; [|exact Hc]. simpl. lia.
Qed.

Lemma decode_ascii c rest :
  byte_val c < 128 -> DecodeRuneInString (String c rest) = (byte_val c, 1%nat).
Proof.
  intros H. unfold DecodeRuneInString.
  destruct (Z.ltb_spec (byte_val c) 128); [reflexivity | lia].
Qed.

Lemma range_from_reaches c rest f truth :
  byte_val c < 128 -> f (byte_val c) = truth ->
  forall p skip i,
    (skip <= String.length p)%nat ->
    exists j, range_from (p ++ String c rest) skip i f truth = Some j.
Proof.
  intros Hc Hf. induction p as [|a p IH]; intros skip i Hskip.
  - simpl in Hskip. assert (skip = 0%nat) as -> by lia.
    rewrite append_nil_l. cbn [range_from].
    rewrite (decode_ascii c rest Hc), Hf, eqb_reflx. eauto.
  - rewrite append_cons. cbn [range_from]. destruct skip as [|k].
    + destruct (decode_width a (p ++ String c rest)) as (n & Hn & Hhigh).
      destruct (DecodeRuneInString _) as [r size]. simpl in Hn. subst size.
      destruct (Bool.eqb (f r) truth); [eauto|].
      apply IH. apply high_prefix_before_ascii in Hhigh; [lia | exact Hc].
    + apply IH. simpl in Hskip. lia.
Qed.


Lemma TrimLeftFunc_reaches p c rest f :
  byte_val c < 128 -> f (byte_val c) = false ->
  strings_TrimLeftFunc (p ++ String c rest) f <> "".
Proof.
  intros Hc Hf Hempty. unfold strings_TrimLeftFunc, indexFunc in Hempty.
  destruct (range_from_reaches c rest f false Hc Hf p 0%nat 0%nat
              ltac:(lia)) as [j Hj].
  rewrite Hj in Hempty. apply range_from_stop in Hj.
  destruct Hj as [_ (a & tl & Hs & _)].
  rewrite Nat.sub_0_r in Hs. rewrite Hs in Hempty. discriminate Hempty.
Qed.

(** A string that starts with a code point outside [f] is left as it is. *)
Lemma TrimLeftFunc_keeps a rest f :
  f (fst (DecodeRuneInString (String a rest))) = false ->
  strings_TrimLeftFunc (String a rest) f = String a rest.
Proof.
  intros Hf. unfold strings_TrimLeftFunc, indexFunc. cbn [range_from].
  destruct (DecodeRuneInString (String a rest)) as [r size].
  simpl in Hf. rewrite Hf. reflexivity.
Qed.

Ltac string_normal :=
  cbn [strings_Join]; unfold LF;
  repeat (rewrite ?append_assoc, ?append_cons, ?append_nil_l).

(** The tooltip is the trimmed body; the body is the title line and the
    labelled lines. *)
Lemma tooltip_trimmed_body E desc fl p h sr ss w :
  tooltip E desc fl p h sr ss w
  = strings_TrimLeftFunc (tooltip_body E desc fl p h sr ss w) unicode_IsSpace.
Proof. unfold tooltip, tooltip_body. f_equal. string_normal. reflexivity. Qed.

Lemma tooltip_body_split E desc fl p h sr ss w :
  tooltip_body E desc fl p h sr ss w
  = (cases_Title E German desc ++ LF) ++ labelled_lines fl p h sr ss w.
Proof. unfold tooltip_body, labelled_lines. string_normal. reflexivity. Qed.

Lemma labelled_lines_head fl p h sr ss w :
  exists rest, labelled_lines fl p h sr ss w = String "F" rest.
Proof. unfold labelled_lines. string_normal. eexists. reflexivity. Qed.

(** ** The formatters *)

(** C4: [tooltip] is the seven lines (the title-cased description, then
    the six labelled lines in their order) joined by newlines, with the
    leading white space of the whole removed; the result is never empty
    and starts with a code point that is not white space. *)
Theorem tooltip_lines E desc fl p h sr ss w :
  tooltip E desc fl p h sr ss w
  = strings_TrimLeftFunc (tooltip_body E desc fl p h sr ss w) unicode_IsSpace
  /\ exists a rest,
       tooltip E desc fl p h sr ss w = String a rest
       /\ unicode_IsSpace (fst (DecodeRuneInString (String a rest))) = false.
Proof.
  assert (Hbody :
    tooltip E desc fl p h sr ss w
    = strings_TrimLeftFunc (tooltip_body E desc fl p h sr ss w)
        unicode_IsSpace).
  { unfold tooltip, tooltip_body. f_equal. string_normal. reflexivity. }
  split; [exact Hbody|]. rewrite Hbody.
  destruct (TrimLeftFunc_head (tooltip_body E desc fl p h sr ss w)
              unicode_IsSpace) as [Hempty|Hhead]; [|exact Hhead].
  exfalso. revert Hempty.
  replace (tooltip_body E desc fl p h sr ss w)
    with ((cases_Title E German desc ++ LF)
          ++ String "F"
               ("eels like " ++ fl ++ " °C" ++ LF
                ++ strings_Join
                     [ "Pressure " ++ p ++ " hPa";
                       "Humidity " ++ h ++ "%";
                       "Sunrise " ++ sr;
                       "Sunset " ++ ss;
                       "Wind speed " ++ w ++ " m/sec" ] LF))
    by (unfold tooltip_body; string_normal; reflexivity).
  apply TrimLeftFunc_reaches; vm_compute; reflexivity.
Qed.

(** When the title-cased description starts with a code point that is not
    white space, nothing is removed: it is the first line. *)
Lemma tooltip_untrimmed E desc fl p h sr ss w a rest :
  cases_Title E German desc = String a rest ->
  unicode_IsSpace
    (fst (DecodeRuneInString (tooltip_body E desc fl p h sr ss w))) = false ->
  tooltip E desc fl p h sr ss w = tooltip_body E desc fl p h sr ss w.
Proof.
  intros Ht Hf. rewrite tooltip_trimmed_body.
  revert Hf. unfold tooltip_body. cbn [strings_Join]. rewrite Ht.
  rewrite append_cons. apply TrimLeftFunc_keeps.
Qed.

(** The example of the specification, with the sample title caser. *)
Example tooltip_clear_sky :
  tooltip (Sample.env []) "clear sky" "20" "1013" "55"
    "06:30 CET" "18:45 CET" "3"
  = "Clear Sky" ++ LF ++ "Feels like 20 °C" ++ LF ++ "Pressure 1013 hPa" ++ LF
    ++ "Humidity 55%" ++ LF ++ "Sunrise 06:30 CET" ++ LF
    ++ "Sunset 18:45 CET" ++ LF ++ "Wind speed 3 m/sec".
Proof. vm_compute. reflexivity. Qed.

(** With an empty description the blank first line is removed and the
    result starts with the first labelled line. *)
Example tooltip_no_description :
  tooltip (Sample.env []) "" "20" "1013" "55" "06:30 CET" "18:45 CET" "3"
  = "Feels like 20 °C" ++ LF ++ "Pressure 1013 hPa" ++ LF
    ++ "Humidity 55%" ++ LF ++ "Sunrise 06:30 CET" ++ LF
    ++ "Sunset 18:45 CET" ++ LF ++ "Wind speed 3 m/sec".
Proof. vm_compute. reflexivity. Qed.

(** ** Numbers in the tooltip *)

Lemma uint_digits d : all_digits (NilEmpty.string_of_uint d) = true.
Proof. induction d; simpl; try reflexivity; exact IHd. Qed.

Lemma uint_is_number d : is_number (NilZero.string_of_uint d) = true.
Proof.
  destruct d; try reflexivity;
    unfold NilZero.string_of_uint; cbn [NilEmpty.string_of_uint is_number];
    cbn [all_digits]; apply uint_digits.
Qed.

Lemma FormatInt_nonneg z : 0 <= z -> is_number (strconv_FormatInt z) = true.
Proof.
  intros H. unfold strconv_FormatInt. destruct z as [|p|p]; [reflexivity| |lia].
  cbn [Z.to_int NilZero.string_of_int]. apply uint_is_number.
Qed.

Lemma is_number_integer s : is_number s = true -> is_integer_text s = true.
Proof.
  intros H. destruct s as [|a s]; [discriminate H|].
  unfold is_integer_text.
  destruct (Ascii.eqb_spec a "-") as [->|Hne].
  - discriminate H.
  - destruct a as [[|] [|] [|] [|] [|] [|] [|] [|]]; try exact H.
    contradiction Hne. reflexivity.
Qed.


Lemma FormatInt_digit k :
  0 <= k < 10 ->
  exists d, strconv_FormatInt k = String d "" /\ is_digit d = true.
Proof.
  intros H.
  assert (Hk : k = 0 \/ k = 1 \/ k = 2 \/ k = 3 \/ k = 4 \/ k = 5 \/ k = 6
               \/ k = 7 \/ k = 8 \/ k = 9) by lia.
  repeat (destruct Hk as [->|Hk]; [eexists; split; reflexivity|]).
  subst k. eexists; split; reflexivity.
Qed.

Lemma float_den_pos e : 0 < float_den e.
Proof. unfold float_den. apply Z.pow_pos_nonneg; lia. Qed.

Lemma float_num_nonneg m e : 0 <= float_num m e.
Proof. unfold float_num. apply Z.mul_nonneg_nonneg; [lia|]. apply Z.pow_nonneg. lia. Qed.

Lemma round_half_even_nonneg n d :
  0 <= n -> 0 < d -> 0 <= round_half_even n d.
Proof.
  intros Hn Hd. unfold round_half_even.
  assert (0 <= n / d) by (apply Z.div_pos; lia).
  destruct (2 * (n mod d) <? d); [lia|].
  destruct (d <? 2 * (n mod d)); [lia|].
  destruct (Z.even (n / d)); lia.
Qed.



Lemma truncation_unique x z1 z2 :
  truncation_of x z1 -> truncation_of x z2 -> z1 = z2.
Proof.
  destruct x as [neg m e| |]; simpl; try contradiction.
  pose proof (float_den_pos e) as Hd.
  intros [[H1 H1'] S1] [[H2 H2'] S2].
  assert (Z.abs z1 = Z.abs z2) by nia.
  destruct neg; lia.
Qed.

Lemma rounded_nonneg m e scale :
  0 <= scale -> 0 <= round_half_even (float_num m e * scale) (float_den e).
Proof.
  intros Hs. apply round_half_even_nonneg; [|apply float_den_pos].
  pose proof (float_num_nonneg m e). nia.
Qed.


(** one digit after the point *)
Lemma FormatFloat_1_shape neg m e :
  exists ip d,
    strconv_FormatFloat (Finite neg m e) 1 = ip ++ "." ++ String d ""
    /\ is_integer_text ip = true /\ is_digit d = true.
Proof.
  unfold strconv_FormatFloat.
  change (10 ^ Z.of_nat 1) with 10.
  pose proof (rounded_nonneg m e 10 ltac:(lia)) as Hr.
  set (r := round_half_even _ _) in *.
  destruct (FormatInt_digit (r mod 10)) as (d & Hd & Hdig).
  { apply Z.mod_pos_bound. lia. }
  assert (Hq : 0 <= r / 10) by (apply Z.div_pos; lia).
  pose proof (FormatInt_nonneg _ Hq) as Hnum.
  exists ((if neg then "-" else "") ++ strconv_FormatInt (r / 10)), d.
  split; [|split; [|exact Hdig]].
  - rewrite Hd. unfold zero_pad. cbn [String.length Nat.sub zeros].
    rewrite append_nil_l.
    destruct neg; rewrite ?append_cons, ?append_nil_l; reflexivity.
  - destruct neg; rewrite ?append_cons, ?append_nil_l.
    + exact Hnum.
    + apply is_number_integer. exact Hnum.
Qed.

(** 20.75 becomes 20 and -0.75 becomes 0: the fraction is dropped, the
    value is not rounded to the nearest integer. *)
Example int64_drops_fraction :
  strconv_FormatInt (int64_of_float64 Sample.unrepresentable
                       (Finite false 83 (-2))) = "20"
  /\ strconv_FormatInt (int64_of_float64 Sample.unrepresentable
                          (Finite true 3 (-2))) = "0".
Proof. split; reflexivity. Qed.

(** The wind speed is rounded to the nearest integer, ties to even. *)
Example wind_speed_rounds :
  strconv_FormatFloat (Finite false 15 (-2)) 0 = "4"
  /\ strconv_FormatFloat (Finite false 5 (-1)) 0 = "2"
  /\ strconv_FormatFloat (Finite false 7 (-1)) 0 = "4".
Proof. repeat split; reflexivity. Qed.

(** C9: [text] is the icon, one space, the temperature text and the
    suffix, in this order and with nothing between them; the run passes the
    temperature formatted with one digit after the decimal point; the sun
    and 21.3 give the line of the specification. *)
Theorem text_concatenates E (icon temp : string) request w_icon w_id :
  text icon temp = icon ++ " " ++ temp ++ " °C"
  /\ text "☀️" "21.3" = "☀️ 21.3 °C"
  /\ Text (build E request w_icon w_id)
     = text (icons_at (Weather_Icon w_icon))
            (strconv_FormatFloat (Main_Temp (Main_ request)) 1)
  /\ (is_finite (Main_Temp (Main_ request)) ->
      exists ip d,
        strconv_FormatFloat (Main_Temp (Main_ request)) 1
        = ip ++ "." ++ String d ""
        /\ is_integer_text ip = true /\ is_digit d = true).
Proof.
  split; [|split; [|split]].
  - unfold text. string_normal. reflexivity.
  - reflexivity.
  - reflexivity.
  - destruct (Main_Temp (Main_ request)) as [neg m e| |];
      [|contradiction|contradiction].
    intros _. apply FormatFloat_1_shape.
Qed.


(** ** The properties on concrete runs *)

Lemma coordinates_sent_as_parsed_witness :
  queries_of
    (snd (run (Sample.env [mkWeather 800 "01d"])
            ["4.5"; "52.25"; Sample.key]))
  = [ {| Longitude := Finite false 9 (-1);
         Latitude := Finite false 209 (-2) |} ].
Proof.
  apply (coordinates_sent_as_parsed (Sample.env [mkWeather 800 "01d"])
           "4.5" "52.25" Sample.key
           (Finite false 9 (-1)) (Finite false 209 (-2))
           (Sample.empty_request Sample.key));
    reflexivity.
Defined.

(** C1 as the specification words it, at the sample run: the value of the
    first argument (4.5) would be the Latitude sent and the value of the
    second (52.25) the Longitude.  The run sends them the other way. *)
Lemma coordinates_swap_refuted :
  ~ (forall long lat c,
       Sample.ParseFloat "4.5" = Ok long ->
       Sample.ParseFloat "52.25" = Ok lat ->
       In c (queries_of
               (snd (run (Sample.env [mkWeather 800 "01d"])
                       ["4.5"; "52.25"; Sample.key]))) ->
       Latitude c = long /\ Longitude c = lat).
Proof.
  intros H.
  destruct (H (Finite false 9 (-1)) (Finite false 209 (-2))
              {| Longitude := Finite false 9 (-1);
                 Latitude := Finite false 209 (-2) |}
              eq_refl eq_refl) as [Hlat _].
  - vm_compute. left. reflexivity.
  - discriminate Hlat.
Qed.

(** C2 at an answer without condition entries: the run is ended by the
    runtime's index panic, exit code 2; no message of the program's own is
    on the error stream and nothing is on standard output. *)
Theorem empty_condition_list_panics :
  run (Sample.env []) ["4.5"; "52.25"; Sample.key]
  = (Panic "runtime error: index out of range [0] with length 0",
     [ EvQuery (Sample.empty_request Sample.key)
         {| Longitude := Finite false 9 (-1);
            Latitude := Finite false 209 (-2) |} ])
  /\ exit_code (fst (run (Sample.env []) ["4.5"; "52.25"; Sample.key])) = 2
  /\ stderr_of (snd (run (Sample.env []) ["4.5"; "52.25"; Sample.key])) = []
  /\ stdout_of (snd (run (Sample.env []) ["4.5"; "52.25"; Sample.key])) = [].
Proof.
  assert (Hrun :
    run (Sample.env []) ["4.5"; "52.25"; Sample.key]
    = (Panic "runtime error: index out of range [0] with length 0",
       [ EvQuery (Sample.empty_request Sample.key)
           {| Longitude := Finite false 9 (-1);
              Latitude := Finite false 209 (-2) |} ])).
  { apply (run_empty_conditions (Sample.env []) "4.5" "52.25" Sample.key
             _ _ _ (Sample.answer_with [] (Sample.empty_request Sample.key)));
      reflexivity. }
  rewrite Hrun. repeat split.
Qed.

Lemma parse_failure_precedes_query_witness :
  fst (run (Sample.env [mkWeather 800 "01d"]) ["north"; "52.25"; Sample.key])
  = Exit 1
  /\ queries_of
       (snd (run (Sample.env [mkWeather 800 "01d"])
               ["north"; "52.25"; Sample.key])) = []
  /\ fst (run (Sample.env [mkWeather 800 "01d"]) ["4.5"; "east"; Sample.key])
     = Exit 1
  /\ queries_of
       (snd (run (Sample.env [mkWeather 800 "01d"])
               ["4.5"; "east"; Sample.key])) = [].
Proof.
  destruct (parse_failure_precedes_query (Sample.env [mkWeather 800 "01d"])
              "north" "52.25" Sample.key
              (or_introl (ex_intro _ "invalid syntax" eq_refl)))
    as (H1 & H2 & _).
  destruct (parse_failure_precedes_query (Sample.env [mkWeather 800 "01d"])
              "4.5" "east" Sample.key
              (or_intror (ex_intro _ "invalid syntax" eq_refl)))
    as (H3 & H4 & _).
  repeat split; assumption.
Defined.

(** A run that passes every stage, and runs that fail at each stage. *)
Example one_record_or_none_runs :
  let good := run (Sample.env [mkWeather 800 "01d"])
                ["4.5"; "52.25"; Sample.key] in
  let bad_arg := run (Sample.env [mkWeather 800 "01d"])
                   ["4.5"; "east"; Sample.key] in
  let bad_key := run (Sample.env [mkWeather 800 "01d"])
                   ["4.5"; "52.25"; ""] in
  let no_entry := run (Sample.env []) ["4.5"; "52.25"; Sample.key] in
  let two_args := run (Sample.env []) ["4.5"; "52.25"] in
  (exit_code (fst good) = 0 /\ length (stdout_of (snd good)) = 1%nat)
  /\ (exit_code (fst bad_arg) = 1 /\ stdout_of (snd bad_arg) = [])
  /\ (exit_code (fst bad_key) = 1 /\ stdout_of (snd bad_key) = [])
  /\ (exit_code (fst no_entry) = 2 /\ stdout_of (snd no_entry) = [])
  /\ (exit_code (fst two_args) = 1 /\ stdout_of (snd two_args) = []).
Proof. vm_compute. repeat split. Qed.

Lemma unknown_icon_degrades_witness :
  icons_at "99x" = ""
  /\ exists b,
       Text (build (Sample.env [mkWeather 800 "99x"])
               (Sample.answer_with [mkWeather 800 "99x"]
                  (Sample.empty_request Sample.key))
               (mkWeather 800 "99x") (mkWeather 800 "99x"))
       = " 21.3 °C"
       /\ run (Sample.env [mkWeather 800 "99x"]) ["4.5"; "52.25"; Sample.key]
          = (Done tt,
             [ EvQuery (Sample.empty_request Sample.key)
                 {| Longitude := Finite false 9 (-1);
                    Latitude := Finite false 209 (-2) |};
               EvStdout b ]).
Proof.
  destruct (Sample.marshal
              (build (Sample.env [mkWeather 800 "99x"])
                 (Sample.answer_with [mkWeather 800 "99x"]
                    (Sample.empty_request Sample.key))
                 (mkWeather 800 "99x") (mkWeather 800 "99x")))
    as [b|err] eqn:Hb; [|discriminate Hb].
  destruct (unknown_icon_degrades (Sample.env [mkWeather 800 "99x"])
              "99x" "4.5" "52.25" Sample.key
              (Finite false 9 (-1)) (Finite false 209 (-2))
              (Sample.empty_request Sample.key)
              (Sample.answer_with [mkWeather 800 "99x"]
                 (Sample.empty_request Sample.key))
              (mkWeather 800 "99x") [] b
              eq_refl eq_refl eq_refl eq_refl eq_refl Hb)
    as (_ & Habsent & Hrun).
  assert (Hnone : icons !! "99x" = None) by (vm_compute; reflexivity).
  split; [exact (Habsent Hnone)|].
  exists b. destruct (Hrun Hnone) as [Htext Hdone].
  split; [|exact Hdone].
  rewrite Htext. vm_compute. reflexivity.
Defined.

Lemma text_concatenates_witness :
  text "☀️" "21.3" = "☀️ 21.3 °C"
  /\ Text (build (Sample.env [])
             (Sample.answer_with [] (Sample.empty_request Sample.key))
             (mkWeather 800 "01n") (mkWeather 800 "01n"))
     = text "☀️" "21.3"
  /\ exists ip d,
       strconv_FormatFloat (Finite false 2731 (-7)) 1 = ip ++ "." ++ String d ""
       /\ is_integer_text ip = true /\ is_digit d = true.
Proof.
  destruct (text_concatenates (Sample.env []) "☀️" "21.3"
              (Sample.answer_with [] (Sample.empty_request Sample.key))
              (mkWeather 800 "01n") (mkWeather 800 "01n"))
    as (_ & Hex & Hbuild & Hshape).
  split; [exact Hex|]. split; [rewrite Hbuild; vm_compute; reflexivity|].
  exact (Hshape I).
Defined.


(** * Further properties *)

(** ** The condition lookup, continued *)

Lemma scan_group_found g id m :
  scan_group g id = Some m ->
  exists c, In c g /\ ConditionData_ID c = id /\ ConditionData_Meaning c = m.
Proof.
  induction g as [|c g IH]; simpl; [discriminate|].
  destruct (Z.eqb_spec (ConditionData_ID c) id) as [Heq|_].
  - intros [= <-]. exists c. auto.
  - intros H. destruct (IH H) as (c' & Hin & Hid & Hm). exists c'. auto.
Qed.

Lemma description_scan E id :
  description E id =
  match scan_group (catalog E) id with
  | Some m => m
  | None => ""
  end.
Proof.
  unfold description. rewrite scan_groups_concat, groups_catalog. reflexivity.
Qed.

(** X1: [description] never invents a text: its result is the empty
    string or the meaning of an entry of the catalog that has the given
    ID. *)
Theorem description_from_catalog E id :
  description E id = ""
  \/ exists c,
       In c (catalog E) /\ ConditionData_ID c = id
       /\ ConditionData_Meaning c = description E id.
Proof.
  rewrite description_scan.
  destruct (scan_group (catalog E) id) as [m|] eqn:H; [|left; reflexivity].
  right. apply scan_group_found. exact H.
Qed.

(** With unique IDs the entry that carries [id] is the one found. *)
Lemma scan_group_unique g c :
  List.NoDup (map ConditionData_ID g) -> In c g ->
  scan_group g (ConditionData_ID c) = Some (ConditionData_Meaning c).
Proof.
  induction g as [|c' g IH]; simpl; [contradiction|].
  intros Hnd Hin. inversion Hnd as [|? ? Hnotin Hnd']; subst.
  destruct Hin as [->|Hin].
  - rewrite Z.eqb_refl. reflexivity.
  - destruct (Z.eqb_spec (ConditionData_ID c') (ConditionData_ID c)) as [Heq|_].
    + exfalso. apply Hnotin. rewrite Heq. apply in_map. exact Hin.
    + apply IH; assumption.
Qed.

(** X2: when no ID occurs twice, the order of the groups and of their
    entries does not matter: two catalogs with the same entries give the
    same description for every ID. *)
Theorem description_order_irrelevant E1 E2 id :
  List.NoDup (map ConditionData_ID (catalog E1)) ->
  Permutation (catalog E1) (catalog E2) ->
  description E1 id = description E2 id.
Proof.
  intros Hnd Hperm. rewrite !description_scan.
  assert (Hnd2 : List.NoDup (map ConditionData_ID (catalog E2))).
  { eapply Permutation_NoDup; [|exact Hnd]. apply Permutation_map. exact Hperm. }
  destruct (scan_group (catalog E1) id) as [m1|] eqn:H1.
  - apply scan_group_found in H1. destruct H1 as (c & Hin & <- & <-).
    rewrite (scan_group_unique (catalog E2) c Hnd2); [reflexivity|].
    eapply Permutation_in; eassumption.
  - destruct (scan_group (catalog E2) id) as [m2|] eqn:H2; [|reflexivity].
    apply scan_group_found in H2. destruct H2 as (c & Hin & <- & <-).
    rewrite (scan_group_unique (catalog E1) c Hnd) in H1; [discriminate|].
    eapply Permutation_in; [apply Permutation_sym|]; eassumption.
Qed.

Ltac nodup_ids :=
  vm_compute;
  repeat (apply List.NoDup_cons; [simpl; intuition discriminate|]);
  apply List.NoDup_nil.

Ltac nodup_entries :=
  repeat (apply List.NoDup_cons; [simpl; intuition discriminate|]);
  apply List.NoDup_nil.

Lemma description_order_irrelevant_witness :
  description SampleCatalog.ordered 800
  = description SampleCatalog.shuffled 800.
Proof.
  apply description_order_irrelevant.
  - nodup_ids.
  - apply Permutation.NoDup_Permutation.
    + nodup_entries.
    + nodup_entries.
    + intros c. simpl. intuition.
Defined.

(** With the duplicate of the sample catalog the order does matter. *)
Example description_order_matters_with_duplicates :
  description (Sample.env []) 800 = "clear sky"
  /\ description
       (SampleCatalog.with_groups Sample.Additional Sample.Drizzle
          Sample.Rain Sample.Snow Sample.Atmosphere Sample.Cloud
          Sample.Thunderstorm) 800 = "shadowed entry".
Proof. split; reflexivity. Qed.

(** ** The icon table, continued *)

(** X3: the lookup gives the empty string exactly for the codes that are
    not in the table: no code of the table carries an empty pictogram. *)
Theorem icons_at_empty_iff (code : string) :
  icons_at code = "" <-> icons !! code = None.
Proof.
  split; [|apply icons_at_absent].
  unfold icons_at. destruct (icons !! code) as [p|] eqn:H; [|reflexivity].
  simpl. intros ->. apply icons_lookup_cases in H. simpl in H.
  repeat (destruct H as [H|H]; [discriminate H|]). destruct H.
Qed.

Lemma icons_at_empty_iff_witness : icons_at "01x" = "".
Proof.
  apply (proj2 (icons_at_empty_iff "01x")). vm_compute. reflexivity.
Defined.

(** X4: every code of the table is three bytes long: two decimal digits
    and then d or n. *)
Theorem icons_codes_two_digits (code p : string) :
  icons !! code = Some p ->
  exists a b s,
    code = String a (String b (String s ""))
    /\ is_digit a = true /\ is_digit b = true
    /\ (s = "d"%char \/ s = "n"%char).
Proof.
  intros H. apply icons_lookup_cases in H. simpl in H.
  repeat (destruct H as [H|H];
    [ injection H as Hk _; subst code; do 3 eexists;
      split; [reflexivity|]; split; [reflexivity|]; split; [reflexivity|];
      first [left; reflexivity | right; reflexivity] | ]).
  destruct H.
Qed.

Lemma icons_codes_two_digits_witness :
  exists a b s,
    "10n" = String a (String b (String s ""))
    /\ is_digit a = true /\ is_digit b = true
    /\ (s = "d"%char \/ s = "n"%char).
Proof.
  apply (icons_codes_two_digits "10n" "🌦️"). vm_compute. reflexivity.
Defined.

(** ** The tooltip, continued *)

Lemma slice_from_app j : forall p r,
  (j <= String.length p)%nat ->
  slice_from j (p ++ r) = slice_from j p ++ r
  /\ exists p0, p = p0 ++ slice_from j p.
Proof.
  induction j as [|j IH]; intros p r Hj.
  - simpl. split; [reflexivity|]. exists "". reflexivity.
  - destruct p as [|a p]; [simpl in Hj; lia|].
    rewrite append_cons. simpl. simpl in Hj.
    destruct (IH p r ltac:(lia)) as [H1 [p0 H2]].
    split; [exact H1|]. exists (String a p0). rewrite append_cons.
    rewrite <- H2. reflexivity.
Qed.

Lemma range_from_reaches_within c rest f truth :
  byte_val c < 128 -> f (byte_val c) = truth ->
  forall p skip i,
    (skip <= String.length p)%nat ->
    exists j, range_from (p ++ String c rest) skip i f truth = Some j
              /\ (j <= i + String.length p)%nat.
Proof.
  intros Hc Hf. induction p as [|a p IH]; intros skip i Hskip.
  - simpl in Hskip. assert (skip = 0%nat) as -> by lia.
    rewrite append_nil_l. cbn [range_from].
    rewrite (decode_ascii c rest Hc), Hf, eqb_reflx.
    exists i. simpl. split; [reflexivity|lia].
  - rewrite append_cons. cbn [range_from]. destruct skip as [|k].
    + destruct (decode_width a (p ++ String c rest)) as (n & Hn & Hhigh).
      destruct (DecodeRuneInString _) as [r size]. simpl in Hn. subst size.
      destruct (Bool.eqb (f r) truth).
      * exists i. split; [reflexivity|lia].
      * apply high_prefix_before_ascii in Hhigh; [|exact Hc].
        destruct (IH (S n - 1)%nat (S i) ltac:(lia)) as (j & Hj & Hle).
        exists j. split; [exact Hj|]. simpl. lia.
    + simpl in Hskip. destruct (IH k (S i) ltac:(lia)) as (j & Hj & Hle).
      exists j. split; [exact Hj|]. simpl. lia.
Qed.

(** Trimming stops at the latest at an ASCII character outside [f]: what
    follows it is kept, and what is removed is the head of what precedes. *)
Lemma TrimLeftFunc_stops p c rest f :
  byte_val c < 128 -> f (byte_val c) = false ->
  exists removed kept,
    p = removed ++ kept
    /\ strings_TrimLeftFunc (p ++ String c rest) f = kept ++ String c rest.
Proof.
  intros Hc Hf. unfold strings_TrimLeftFunc, indexFunc.
  destruct (range_from_reaches_within c rest f false Hc Hf p 0%nat 0%nat
              ltac:(lia)) as (j & Hj & Hle).
  rewrite Hj. simpl in Hle.
  destruct (slice_from_app j p (String c rest) Hle) as [Hs [p0 Hp]].
  exists p0, (slice_from j p). split; [exact Hp | exact Hs].
Qed.

(** X5: the trimming never reaches the labelled lines: the tooltip always
    ends with the six labelled lines in full, and what precedes them is the
    end of the title line (the title-cased description and its newline). *)
Theorem tooltip_keeps_labelled_lines E desc fl p h sr ss w :
  exists removed kept,
    cases_Title E German desc ++ LF = removed ++ kept
    /\ tooltip E desc fl p h sr ss w
       = kept ++ labelled_lines fl p h sr ss w.
Proof.
  rewrite tooltip_trimmed_body, tooltip_body_split.
  destruct (labelled_lines_head fl p h sr ss w) as [rest ->].
  apply TrimLeftFunc_stops; vm_compute; reflexivity.
Qed.

(** X6: when the title-cased description starts with an ASCII character
    that is not white space, nothing is trimmed: the tooltip is that
    description, a newline and the six labelled lines. *)
Theorem tooltip_first_line_is_title E desc fl p h sr ss w a rest :
  cases_Title E German desc = String a rest ->
  byte_val a < 128 ->
  unicode_IsSpace (byte_val a) = false ->
  tooltip E desc fl p h sr ss w
  = cases_Title E German desc ++ LF ++ labelled_lines fl p h sr ss w.
Proof.
  intros Ht Ha Hsp. rewrite tooltip_trimmed_body, tooltip_body_split.
  rewrite append_assoc, Ht, append_cons.
  apply TrimLeftFunc_keeps. rewrite decode_ascii by exact Ha. exact Hsp.
Qed.

Lemma tooltip_first_line_is_title_witness :
  tooltip (Sample.env []) "clear sky" "20" "1013" "55"
    "06:30 CET" "18:45 CET" "3"
  = "Clear Sky" ++ LF
    ++ labelled_lines "20" "1013" "55" "06:30 CET" "18:45 CET" "3".
Proof.
  apply (tooltip_first_line_is_title (Sample.env []) "clear sky" "20" "1013"
           "55" "06:30 CET" "18:45 CET" "3" "C" "lear Sky").
  - reflexivity.
  - vm_compute. reflexivity.
  - reflexivity.
Defined.

(** X7: when the title-cased description is empty, the tooltip is the six
    labelled lines alone: it starts with the feels-like line. *)
Theorem tooltip_without_description E desc fl p h sr ss w :
  cases_Title E German desc = "" ->
  tooltip E desc fl p h sr ss w = labelled_lines fl p h sr ss w.
Proof.
  intros Ht. rewrite tooltip_trimmed_body, tooltip_body_split, Ht.
  rewrite append_nil_l.
  destruct (labelled_lines_head fl p h sr ss w) as [rest ->].
  unfold LF. rewrite append_cons, append_nil_l.
  unfold strings_TrimLeftFunc, indexFunc. cbn [range_from].
  rewrite decode_ascii by (vm_compute; reflexivity).
  change (Bool.eqb (unicode_IsSpace (byte_val (ascii_of_nat 10))) false)
    with false.
  cbn [Nat.sub range_from]. rewrite decode_ascii by (vm_compute; reflexivity).
  change (Bool.eqb (unicode_IsSpace (byte_val "F")) false) with true.
  reflexivity.
Qed.

Lemma tooltip_without_description_witness :
  tooltip (Sample.env []) "" "20" "1013" "55" "06:30 CET" "18:45 CET" "3"
  = labelled_lines "20" "1013" "55" "06:30 CET" "18:45 CET" "3".
Proof.
  apply (tooltip_without_description (Sample.env [])). reflexivity.
Defined.

(** ** Rounding in the text and in the tooltip *)

Lemma round_half_even_near n d :
  0 <= n -> 0 < d ->
  2 * Z.abs (round_half_even n d * d - n) <= d
  /\ (2 * Z.abs (round_half_even n d * d - n) = d ->
      Z.even (round_half_even n d) = true).
Proof.
  intros Hn Hd. unfold round_half_even.
  pose proof (Z.div_mod n d ltac:(lia)) as Hdm.
  pose proof (Z.mod_pos_bound n d Hd) as Hmod.
  set (q := n / d) in *. set (r := n mod d) in *.
  destruct (Z.ltb_spec (2 * r) d) as [H1|H1]; [split; [nia|intros; nia]|].
  destruct (Z.ltb_spec d (2 * r)) as [H2|H2]; [split; [nia|intros; nia]|].
  destruct (Z.even q) eqn:He; [split; [nia|intros; exact He]|].
  split; [nia|]. intros _.
  rewrite Z.even_add, He. reflexivity.
Qed.

Lemma FormatFloat_1_digits neg m e :
  let r := round_half_even (float_num m e * 10) (float_den e) in
  strconv_FormatFloat (Finite neg m e) 1
  = sign_text neg ++ strconv_FormatInt (r / 10) ++ "."
    ++ strconv_FormatInt (r mod 10).
Proof.
  intros r. unfold strconv_FormatFloat.
  change (10 ^ Z.of_nat 1) with 10. fold r.
  destruct (FormatInt_digit (r mod 10)) as (d & Hd & _).
  { apply Z.mod_pos_bound. lia. }
  rewrite Hd. unfold zero_pad. cbn [String.length Nat.sub zeros].
  rewrite append_nil_l. reflexivity.
Qed.

(** X8: the temperature of the text is the provider's value rounded to
    the nearest tenth, a tie going to the even tenth: the text shows [r]
    tenths, and [r] tenths differ from the value by at most a twentieth. *)
Theorem temperature_nearest_tenth E request w_icon w_id neg m e :
  Main_Temp (Main_ request) = Finite neg m e ->
  exists r : Z,
    0 <= r
    /\ 2 * Z.abs (r * float_den e - 10 * float_num m e) <= float_den e
    /\ (2 * Z.abs (r * float_den e - 10 * float_num m e) = float_den e ->
        Z.even r = true)
    /\ Text (build E request w_icon w_id)
       = icons_at (Weather_Icon w_icon) ++ " " ++ sign_text neg
         ++ strconv_FormatInt (r / 10) ++ "." ++ strconv_FormatInt (r mod 10)
         ++ " °C".
Proof.
  intros Ht.
  exists (round_half_even (float_num m e * 10) (float_den e)).
  pose proof (float_num_nonneg m e) as Hn.
  pose proof (float_den_pos e) as Hd.
  destruct (round_half_even_near (float_num m e * 10) (float_den e)
              ltac:(lia) Hd) as [Hnear Htie].
  split; [apply rounded_nonneg; lia|].
  split; [rewrite (Z.mul_comm 10); exact Hnear|].
  split; [rewrite (Z.mul_comm 10); exact Htie|].
  unfold build. cbn [Text]. rewrite Ht, FormatFloat_1_digits.
  unfold text. string_normal. reflexivity.
Qed.

Lemma temperature_nearest_tenth_witness :
  exists r : Z,
    0 <= r
    /\ 2 * Z.abs (r * float_den (-7) - 10 * float_num 2731 (-7))
       <= float_den (-7)
    /\ Text (build (Sample.env [])
               (Sample.answer_with [] (Sample.empty_request Sample.key))
               (mkWeather 800 "01d") (mkWeather 800 "01d"))
       = icons_at "01d" ++ " " ++ sign_text false
         ++ strconv_FormatInt (r / 10) ++ "." ++ strconv_FormatInt (r mod 10)
         ++ " °C".
Proof.
  destruct (temperature_nearest_tenth (Sample.env [])
              (Sample.answer_with [] (Sample.empty_request Sample.key))
              (mkWeather 800 "01d") (mkWeather 800 "01d")
              false 2731 (-7) eq_refl)
    as (r & H0 & Hnear & _ & Htext).
  exists r. split; [exact H0|]. split; [exact Hnear|]. exact Htext.
Defined.

(** X9: the wind speed of the tooltip is the provider's value rounded to
    the nearest integer, a tie going to the even one; it is not truncated
    as the feels-like temperature and the pressure are. *)
Theorem wind_speed_nearest_integer E request w_icon w_id neg m e :
  Wind_Speed (Wind_ request) = Finite neg m e ->
  exists r : Z,
    0 <= r
    /\ 2 * Z.abs (r * float_den e - float_num m e) <= float_den e
    /\ (2 * Z.abs (r * float_den e - float_num m e) = float_den e ->
        Z.even r = true)
    /\ Tooltip (build E request w_icon w_id)
       = tooltip E (description E (Weather_ID w_id))
           (strconv_FormatInt
              (int64_of_float64 (conv_unrepresentable E)
                 (Main_FeelsLike (Main_ request))))
           (strconv_FormatInt
              (int64_of_float64 (conv_unrepresentable E)
                 (Main_Pressure (Main_ request))))
           (strconv_FormatInt (Main_Humidity (Main_ request)))
           (time_Format E (Sys_Sunrise (Sys_ request)) timefmt)
           (time_Format E (Sys_Sunset (Sys_ request)) timefmt)
           (sign_text neg ++ strconv_FormatInt r).
Proof.
  intros Hw.
  pose proof (float_num_nonneg m e) as Hn.
  pose proof (float_den_pos e) as Hd.
  destruct (round_half_even_near (float_num m e * 1) (float_den e)
              ltac:(lia) Hd) as [Hnear Htie].
  pose proof (rounded_nonneg m e 1 ltac:(lia)) as Hr.
  set (r := round_half_even (float_num m e * 1) (float_den e)) in *.
  rewrite Z.mul_1_r in Hnear, Htie.
  exists r. split; [exact Hr|]. split; [exact Hnear|]. split; [exact Htie|].
  unfold build. cbn [Tooltip]. rewrite Hw. unfold strconv_FormatFloat.
  change (10 ^ Z.of_nat 0) with 1. fold r. rewrite Z.div_1_r, append_nil_r.
  reflexivity.
Qed.

Lemma wind_speed_nearest_integer_witness :
  exists r : Z,
    0 <= r
    /\ 2 * Z.abs (r * float_den (-1) - float_num 7 (-1)) <= float_den (-1)
    /\ Tooltip (build (Sample.env [])
                  (Sample.answer_with [] (Sample.empty_request Sample.key))
                  (mkWeather 800 "01d") (mkWeather 800 "01d"))
       = tooltip (Sample.env []) "clear sky" "20" "1013" "55"
           "06:30 CET" "18:45 CET" (sign_text false ++ strconv_FormatInt r).
Proof.
  destruct (wind_speed_nearest_integer (Sample.env [])
              (Sample.answer_with [] (Sample.empty_request Sample.key))
              (mkWeather 800 "01d") (mkWeather 800 "01d")
              false 7 (-1) eq_refl)
    as (r & H0 & Hnear & _ & Htip).
  exists r. split; [exact H0|]. split; [exact Hnear|]. exact Htip.
Defined.

(** ** The run, continued *)

Section RunMore.
Variable E : Env.

Lemma args_three (args : list string) :
  length args = 3%nat -> exists a0 a1 a2, args = [a0; a1; a2].
Proof.
  intros H. destruct args as [|a0 [|a1 [|a2 [|a3 rest]]]]; try discriminate H.
  eauto.
Qed.

(** X10: a run sends at most one query, whatever the arguments and
    whatever the environment answers. *)
Theorem at_most_one_query (args : list string) :
  (length (queries_of (snd (run E args))) <= 1)%nat.
Proof.
  destruct (Nat.eq_dec (length args) 3%nat) as [Hlen|Hlen].
  - destruct (args_three args Hlen) as (a0 & a1 & a2 & ->).
    rewrite run_three, Run_stages.
    destruct (strconv_ParseFloat E a0); [|simpl; lia].
    destruct (strconv_ParseFloat E a1); [|simpl; lia].
    destruct (NewCurrent E "C" "en" a2); [|simpl; lia].
    simpl. destruct (provider E _ _) as [response|]; [|simpl; lia].
    destruct (Weather_ response); [simpl; lia|].
    destruct (json_Marshal E _); simpl; lia.
  - rewrite (run_wrong_count E args Hlen). simpl. lia.
Qed.

(** X11: with three arguments the query is sent exactly when both
    coordinates parse and the client accepts the key; nothing else decides
    it. *)
Theorem query_sent_iff a0 a1 a2 :
  queries_of (snd (run E [a0; a1; a2])) <> []
  <-> exists long lat request,
        strconv_ParseFloat E a0 = Ok long
        /\ strconv_ParseFloat E a1 = Ok lat
        /\ NewCurrent E "C" "en" a2 = Ok request.
Proof.
  rewrite run_three, Run_stages. split.
  - destruct (strconv_ParseFloat E a0) as [long|];
      [|intros H; exfalso; apply H; reflexivity].
    destruct (strconv_ParseFloat E a1) as [lat|];
      [|intros H; exfalso; apply H; reflexivity].
    destruct (NewCurrent E "C" "en" a2) as [request|];
      [|intros H; exfalso; apply H; reflexivity].
    intros _. exists long, lat, request. repeat split; reflexivity.
  - intros (long & lat & request & -> & -> & ->). simpl.
    destruct (provider E _ _) as [response|]; [|discriminate].
    destruct (Weather_ response); [discriminate|].
    destruct (json_Marshal E _); discriminate.
Qed.

(** X12: when the client rejects the key, the run ends with exit code 1
    after the message that names this stage; no query has been sent and
    nothing is on standard output. *)
Theorem rejected_key_precedes_query a0 a1 a2 long lat err :
  strconv_ParseFloat E a0 = Ok long ->
  strconv_ParseFloat E a1 = Ok lat ->
  NewCurrent E "C" "en" a2 = Err err ->
  run E [a0; a1; a2] = (Exit 1, [EvStderr ("get weatherinfo: " ++ err)]).
Proof.
  intros H0 H1 H2. rewrite run_three, Run_stages, H0, H1, H2. reflexivity.
Qed.

(** X13: when the query fails, the run ends with exit code 1 after that
    one query and the message that names the stage; there is no second
    attempt and nothing is on standard output. *)
Theorem provider_failure_is_fatal a0 a1 a2 long lat request err :
  strconv_ParseFloat E a0 = Ok long ->
  strconv_ParseFloat E a1 = Ok lat ->
  NewCurrent E "C" "en" a2 = Ok request ->
  provider E request {| Longitude := long; Latitude := lat |} = Err err ->
  run E [a0; a1; a2]
  = (Exit 1,
     [ EvQuery request {| Longitude := long; Latitude := lat |};
       EvStderr ("get weather: " ++ err) ]).
Proof.
  intros H0 H1 H2 H3. rewrite run_three, Run_stages, H0, H1, H2. simpl.
  rewrite H3. reflexivity.
Qed.

(** X14: when the encoder fails, the run ends with exit code 1 after the
    message that names the stage, and nothing has been written to standard
    output. *)
Theorem encode_failure_is_fatal
    a0 a1 a2 long lat request response w rest err :
  strconv_ParseFloat E a0 = Ok long ->
  strconv_ParseFloat E a1 = Ok lat ->
  NewCurrent E "C" "en" a2 = Ok request ->
  provider E request {| Longitude := long; Latitude := lat |} = Ok response ->
  Weather_ response = w :: rest ->
  json_Marshal E (build E response w w) = Err err ->
  run E [a0; a1; a2]
  = (Exit 1,
     [ EvQuery request {| Longitude := long; Latitude := lat |};
       EvStderr ("encode json: " ++ err) ])
  /\ stdout_of (snd (run E [a0; a1; a2])) = [].
Proof.
  intros H0 H1 H2 H3 H4 H5.
  assert (Hrun : run E [a0; a1; a2]
    = (Exit 1,
       [ EvQuery request {| Longitude := long; Latitude := lat |};
         EvStderr ("encode json: " ++ err) ])).
  { rewrite run_three, Run_stages, H0, H1, H2. simpl.
    rewrite H3, H4, H5. reflexivity. }
  rewrite Hrun. split; reflexivity.
Qed.


(** What a computation adds to the trace does not depend on the trace it
    starts from. *)
Lemma Execute_frame args tr :
  Execute E args tr
  = (fst (Execute E args []), (tr ++ snd (Execute E args []))%list).
Proof.
  unfold Execute. destruct (Nat.eqb_spec (length args) 3%nat) as [Hlen|Hlen].
  - destruct (args_three args Hlen) as (a0 & a1 & a2 & ->).
    rewrite !Run_stages.
    destruct (strconv_ParseFloat E a0); [|reflexivity].
    destruct (strconv_ParseFloat E a1); [|reflexivity].
    destruct (NewCurrent E "C" "en" a2); [|reflexivity].
    simpl. destruct (provider E _ _) as [response|]; [|reflexivity].
    destruct (Weather_ response); [reflexivity|].
    destruct (json_Marshal E _); reflexivity.
  - reflexivity.
Qed.

End RunMore.

Lemma query_sent_iff_witness :
  queries_of
    (snd (run (Sample.env []) ["4.5"; "52.25"; Sample.key])) <> [].
Proof.
  apply (proj2 (query_sent_iff (Sample.env []) "4.5" "52.25" Sample.key)).
  exists (Finite false 9 (-1)), (Finite false 209 (-2)),
         (Sample.empty_request Sample.key).
  repeat split; reflexivity.
Defined.

Lemma rejected_key_precedes_query_witness :
  run (Sample.env [mkWeather 800 "01d"]) ["4.5"; "52.25"; ""]
  = (Exit 1, [EvStderr "get weatherinfo: invalid API key"]).
Proof.
  apply (rejected_key_precedes_query (Sample.env [mkWeather 800 "01d"])
           "4.5" "52.25" "" (Finite false 9 (-1)) (Finite false 209 (-2))
           "invalid API key");
    reflexivity.
Defined.

Lemma provider_failure_is_fatal_witness :
  run SampleCatalog.unreachable_provider ["4.5"; "52.25"; Sample.key]
  = (Exit 1,
     [ EvQuery (Sample.empty_request Sample.key)
         {| Longitude := Finite false 9 (-1);
            Latitude := Finite false 209 (-2) |};
       EvStderr "get weather: dial tcp: no route to host" ]).
Proof.
  apply (provider_failure_is_fatal SampleCatalog.unreachable_provider
           "4.5" "52.25" Sample.key
           (Finite false 9 (-1)) (Finite false 209 (-2))
           (Sample.empty_request Sample.key) "dial tcp: no route to host");
    reflexivity.
Defined.

Lemma encode_failure_is_fatal_witness :
  run SampleCatalog.failing_encoder ["4.5"; "52.25"; Sample.key]
  = (Exit 1,
     [ EvQuery (Sample.empty_request Sample.key)
         {| Longitude := Finite false 9 (-1);
            Latitude := Finite false 209 (-2) |};
       EvStderr "encode json: unsupported value" ])
  /\ stdout_of
       (snd (run SampleCatalog.failing_encoder
               ["4.5"; "52.25"; Sample.key])) = [].
Proof.
  apply (encode_failure_is_fatal SampleCatalog.failing_encoder
           "4.5" "52.25" Sample.key
           (Finite false 9 (-1)) (Finite false 209 (-2))
           (Sample.empty_request Sample.key)
           (Sample.answer_with [mkWeather 800 "01d"]
              (Sample.empty_request Sample.key))
           (mkWeather 800 "01d") [] "unsupported value");
    reflexivity.
Defined.

(** ** The configuration step *)

Lemma stdout_of_app tr1 tr2 :
  stdout_of (tr1 ++ tr2) = (stdout_of tr1 ++ stdout_of tr2)%list.
Proof.
  induction tr1 as [|e tr1 IH]; [reflexivity|].
  destruct e; simpl; rewrite IH; reflexivity.
Qed.

Lemma queries_of_app tr1 tr2 :
  queries_of (tr1 ++ tr2) = (queries_of tr1 ++ queries_of tr2)%list.
Proof.
  induction tr1 as [|e tr1 IH]; [reflexivity|].
  destruct e; simpl; rewrite IH; reflexivity.
Qed.

Section Config.
Variable C : ConfigEnv.

Lemma initConfig_stages cfgFile v tr :
  initConfig C cfgFile v tr =
  if negb (String.eqb cfgFile "") then
    read_config C (viper_SetConfigFile C cfgFile v) tr
  else
    match snd (os_UserHomeDir C) with
    | Some msg => (Exit 1, (tr ++ [EvStderr ("Error: " ++ msg ++ LF)])%list)
    | None =>
        read_config C
          (viper_SetConfigName C ".waybar-openweathermap"
             (viper_SetConfigType C "yaml"
                (viper_AddConfigPath C (fst (os_UserHomeDir C)) v))) tr
    end.
Proof.
  unfold initConfig, read_config, cobra_CheckErr, fmt_Fprintln_Stderr, emit,
    os_Exit, mbind, mret, Proc_bind, Proc_ret.
  destruct (negb (String.eqb cfgFile "")).
  - destruct (viper_ReadInConfig C _) as [v' [err|]]; reflexivity.
  - destruct (os_UserHomeDir C) as [home [msg|]]; simpl; [reflexivity|].
    destruct (viper_ReadInConfig C _) as [v' [err|]]; reflexivity.
Qed.

Lemma read_config_returns v tr :
  exists v' out,
    read_config C v tr = (Done v', (tr ++ out)%list)
    /\ stdout_of out = [] /\ queries_of out = []
    /\ (length (stderr_of out) <= 1)%nat
    /\ (snd (viper_ReadInConfig C (viper_AutomaticEnv C v)) <> None ->
        out = []).
Proof.
  unfold read_config.
  destruct (viper_ReadInConfig C _) as [v' [err|]]; simpl.
  - exists v', []. rewrite app_nil_r. repeat split; simpl; auto.
  - eexists v', [_]. repeat split; simpl; auto. intros H. contradiction.
Qed.

Lemma initConfig_returns cfgFile v tr :
  cfgFile <> "" \/ snd (os_UserHomeDir C) = None ->
  exists v' out,
    initConfig C cfgFile v tr = (Done v', (tr ++ out)%list)
    /\ stdout_of out = [] /\ queries_of out = []
    /\ (length (stderr_of out) <= 1)%nat.
Proof.
  intros H. rewrite initConfig_stages.
  destruct (String.eqb_spec cfgFile "") as [Heq|Hne]; simpl.
  - destruct H as [H|H]; [contradiction|]. rewrite H.
    destruct (read_config_returns
                (viper_SetConfigName C ".waybar-openweathermap"
                   (viper_SetConfigType C "yaml"
                      (viper_AddConfigPath C (fst (os_UserHomeDir C)) v))) tr)
      as (v' & out & Hr & H1 & H2 & H3 & _).
    exists v', out. auto.
  - destruct (read_config_returns (viper_SetConfigFile C cfgFile v) tr)
      as (v' & out & Hr & H1 & H2 & H3 & _).
    exists v', out. auto.
Qed.

(** X16: a configuration file that is missing or cannot be read never
    stops the program.  When a file is named on the command line or the
    home directory is known, [initConfig] returns; it writes nothing to
    standard output, sends no query, and puts at most one line on the error
    stream. *)
Theorem initConfig_tolerates_missing_config cfgFile v :
  cfgFile <> "" \/ snd (os_UserHomeDir C) = None ->
  exists v',
    fst (initConfig C cfgFile v []) = Done v'
    /\ stdout_of (snd (initConfig C cfgFile v [])) = []
    /\ queries_of (snd (initConfig C cfgFile v [])) = []
    /\ (length (stderr_of (snd (initConfig C cfgFile v []))) <= 1)%nat.
Proof.
  intros H.
  destruct (initConfig_returns cfgFile v [] H)
    as (v' & out & Hr & H1 & H2 & H3).
  rewrite Hr. exists v'. simpl. auto.
Qed.

(** X17: when the configuration step returns, it changes nothing of what
    the run that follows it does: the exit status, standard output and the
    query are those of the run alone. *)
Theorem config_step_is_transparent (E : Env) cfgFile args v :
  cfgFile <> "" \/ snd (os_UserHomeDir C) = None ->
  fst (Execute_with_config C E cfgFile args v []) = fst (run E args)
  /\ stdout_of (snd (Execute_with_config C E cfgFile args v []))
     = stdout_of (snd (run E args))
  /\ queries_of (snd (Execute_with_config C E cfgFile args v []))
     = queries_of (snd (run E args)).
Proof.
  intros H.
  destruct (initConfig_returns cfgFile v [] H)
    as (v' & out & Hr & H1 & H2 & _).
  unfold Execute_with_config, mbind, Proc_bind. rewrite Hr.
  rewrite Execute_frame. unfold run. simpl.
  rewrite stdout_of_app, queries_of_app, H1, H2. auto.
Qed.

(** X18: without a configuration file on the command line, a failure to
    find the home directory ends the program with exit code 1 and one line
    on the error stream, before the arguments are looked at: nothing is
    parsed, no query is sent, nothing is written to standard output. *)
Theorem home_failure_stops_the_run (E : Env) args v home msg :
  os_UserHomeDir C = (home, Some msg) ->
  Execute_with_config C E "" args v []
  = (Exit 1, [EvStderr ("Error: " ++ msg ++ LF)]).
Proof.
  intros H. unfold Execute_with_config, mbind, Proc_bind.
  rewrite initConfig_stages. simpl. rewrite H. reflexivity.
Qed.

End Config.

Lemma initConfig_tolerates_missing_config_witness :
  exists v',
    fst (initConfig (SampleConfig.config ("", Some "$HOME is not defined")
                       false) "/etc/widget.yaml" [] []) = Done v'
    /\ stdout_of
         (snd (initConfig (SampleConfig.config
                             ("", Some "$HOME is not defined") false)
                 "/etc/widget.yaml" [] [])) = [].
Proof.
  assert (Hne : "/etc/widget.yaml" <> "") by discriminate.
  destruct (initConfig_tolerates_missing_config
              (SampleConfig.config ("", Some "$HOME is not defined") false)
              "/etc/widget.yaml" ([] : list string) (or_introl Hne))
    as (v' & Hdone & Hout & _).
  exists v'. split; [exact Hdone | exact Hout].
Defined.

Lemma config_step_is_transparent_witness :
  fst (Execute_with_config (SampleConfig.config ("/home/u", None) true)
         (Sample.env [mkWeather 800 "01d"]) ""
         ["4.5"; "52.25"; Sample.key] [] [])
  = fst (run (Sample.env [mkWeather 800 "01d"])
           ["4.5"; "52.25"; Sample.key])
  /\ stdout_of
       (snd (Execute_with_config (SampleConfig.config ("/home/u", None) true)
               (Sample.env [mkWeather 800 "01d"]) ""
               ["4.5"; "52.25"; Sample.key] [] []))
     = stdout_of
         (snd (run (Sample.env [mkWeather 800 "01d"])
                 ["4.5"; "52.25"; Sample.key])).
Proof.
  destruct (config_step_is_transparent
              (SampleConfig.config ("/home/u", None) true)
              (Sample.env [mkWeather 800 "01d"]) ""
              ["4.5"; "52.25"; Sample.key] [] (or_intror eq_refl))
    as (Hst & Hout & _).
  split; [exact Hst | exact Hout].
Defined.

Lemma home_failure_stops_the_run_witness :
  Execute_with_config
    (SampleConfig.config ("", Some "$HOME is not defined") true)
    (Sample.env [mkWeather 800 "01d"]) ""
    ["4.5"; "52.25"; Sample.key] []
    []
  = (Exit 1, [EvStderr ("Error: $HOME is not defined" ++ LF)]).
Proof.
  apply (home_failure_stops_the_run
           (SampleConfig.config ("", Some "$HOME is not defined") true)
           (Sample.env [mkWeather 800 "01d"])
           ["4.5"; "52.25"; Sample.key] [] "" "$HOME is not defined").
  reflexivity.
Defined.
